(** * DietaryApp bot: recipe filter, shop locator, pricing, advice client
      and conversation state machine

    A shallow embedding of [src/middleware.py] (the services
    [RecipeService], [ShopService], [GPTService]) and of the text and
    callback handlers of [src/handlers.py], with the properties of the
    specification stated over it. *)

From Stdlib Require Import ZArith NArith QArith Qround Qabs Reals Lra Lia Psatz.
From Stdlib Require Import Sorting.Sorted Sorting.Permutation DecimalString.
From stdpp Require Import gmap strings list fin_maps sorting.

Set Default Proof Using "Type".
#[local] Open Scope Z_scope.

(** ** Python strings

    A [str] is a sequence of Unicode code points.  The catalogues of the
    source are written as UTF-8 literals and decoded once. *)

Module PyStr.

Definition pystr := list N.

Definition byte_val (a : Ascii.ascii) : N := Ascii.N_of_ascii a.

(** UTF-8 decoding of a byte sequence (1 to 4 byte forms; the literals of
    the source are well formed). *)
Fixpoint utf8_decode (bs : list N) : pystr :=
  match bs with
  | [] => []
  | b0 :: r0 =>
      if (b0 <? 128)%N then b0 :: utf8_decode r0
      else if (b0 <? 224)%N then
        match r0 with
        | b1 :: r1 => ((b0 - 192) * 64 + (b1 - 128))%N :: utf8_decode r1
        | [] => [b0]
        end
      else if (b0 <? 240)%N then
        match r0 with
        | b1 :: b2 :: r2 =>
            ((b0 - 224) * 4096 + (b1 - 128) * 64 + (b2 - 128))%N
              :: utf8_decode r2
        | _ => [b0]
        end
      else
        match r0 with
        | b1 :: b2 :: b3 :: r3 =>
            ((b0 - 240) * 262144 + (b1 - 128) * 4096
             + (b2 - 128) * 64 + (b3 - 128))%N :: utf8_decode r3
        | _ => [b0]
        end
  end.

Definition u (s : string) : pystr :=
  utf8_decode (map byte_val (String.list_ascii_of_string s)).

(** [needle in haystack] on [str]: contiguous subsequence. *)
Fixpoint startswith (needle hay : pystr) : bool :=
  match needle, hay with
  | [], _ => true
  | _ :: _, [] => false
  | a :: n', b :: h' => (a =? b)%N && startswith n' h'
  end.

Fixpoint contains (needle hay : pystr) : bool :=
  startswith needle hay
  || match hay with
     | [] => false
     | _ :: h' => contains needle h'
     end.

(** [str.isspace] of one code point: the characters whose bidirectional
    class is WS, B or S, or whose category is Zs. *)
Definition isspace (c : N) : bool :=
  ((9 <=? c) && (c <=? 13) || (28 <=? c) && (c <=? 32)
   || (c =? 133) || (c =? 160) || (c =? 5760)
   || (8192 <=? c) && (c <=? 8202)
   || (c =? 8232) || (c =? 8233) || (c =? 8239) || (c =? 8287)
   || (c =? 12288))%N.

Fixpoint lstrip (s : pystr) : pystr :=
  match s with
  | [] => []
  | c :: s' => if isspace c then lstrip s' else s
  end.

Definition rstrip (s : pystr) : pystr := rev (lstrip (rev s)).

(** [str.strip()] with no argument. *)
Definition strip (s : pystr) : pystr := rstrip (lstrip s).

(** [str.lower] consults the Unicode case tables, which are not part of
    the repository: the services take the operation from this class, and
    every general theorem below holds for any instance.  The one law is
    that the empty string has no character to convert. *)
Class Lowercase := {
  lower : pystr -> pystr;
  lower_empty : lower [] = []
}.

(** The instance used to evaluate the catalogue: simple lower-casing of
    Basic Latin, Latin-1 and the Cyrillic block (the alphabets of the
    fixture data); other code points are left as they are. *)
Definition lower_cp (c : N) : N :=
  (if (65 <=? c) && (c <=? 90) then c + 32
   else if (192 <=? c) && (c <=? 222) && negb (c =? 215) then c + 32
   else if (1024 <=? c) && (c <=? 1039) then c + 80
   else if (1040 <=? c) && (c <=? 1071) then c + 32
   else c)%N.

Definition cyrillic_lower : Lowercase :=
  {| lower := map lower_cp; lower_empty := eq_refl |}.

End PyStr.
Import PyStr.

(** ** Python list slicing [l[:limit]]

    A non-negative bound keeps the first [limit] items; a negative bound
    counts from the end of the list. *)
Definition py_slice_to {A} (l : list A) (limit : Z) : list A :=
  if 0 <=? limit then take (Z.to_nat limit) l
  else take (Z.to_nat (Z.of_nat (length l) + limit)) l.

(** ** Recipe catalogue

    The recipe dictionaries of the source always carry the same keys and
    are embedded as records.  Where the source reads a key with
    [.get(key, default)], a dictionary without the key is represented by
    the record holding the default. *)

Record Ingredient := {
  ing_name : pystr;
  ing_amount : Z;
  ing_unit : pystr
}.

Record Recipe := {
  r_id : pystr;
  r_name : pystr;
  r_description : pystr;
  r_calories : Z;
  r_proteins : Z;
  r_fats : Z;
  r_carbs : Z;
  glycemic_index : Z;
  purines : Z;
  suitable_for_diabetes : bool;
  suitable_for_gout : bool;
  suitable_for_celiac : bool;
  r_ingredients : list Ingredient;
  r_instructions : list pystr
}.

Definition ing (n : string) (a : Z) (un : string) : Ingredient :=
  {| ing_name := u n; ing_amount := a; ing_unit := u un |}.

Definition r_001 : Recipe := {|
  r_id := u "r_001";
  r_name := u "Курица с брокколи на пару";
  r_description := u "Лёгкое диетическое блюдо для диабетиков";
  r_calories := 320; r_proteins := 42; r_fats := 9; r_carbs := 18;
  glycemic_index := 35;
  purines := 45;
  suitable_for_diabetes := true;
  suitable_for_gout := false;
  suitable_for_celiac := true;
  r_ingredients := [
    ing "Куриное филе" 300 "g";
    ing "Брокколи" 200 "g";
    ing "Оливковое масло" 10 "ml";
    ing "Соль, перец" 1 "щепотка" ];
  r_instructions := [
    u "Нарезать курицу кусочками";
    u "Разделить брокколи на соцветия";
    u "Готовить на пару 15-20 минут";
    u "Приправить солью и перцем" ]
|}.

Definition r_002 : Recipe := {|
  r_id := u "r_002";
  r_name := u "Салат «Зелёный микс»";
  r_description := u "Лёгкий овощной салат для всех диагнозов";
  r_calories := 150; r_proteins := 5; r_fats := 8; r_carbs := 12;
  glycemic_index := 20;
  purines := 5;
  suitable_for_diabetes := true;
  suitable_for_gout := true;
  suitable_for_celiac := true;
  r_ingredients := [
    ing "Листья салата" 100 "g";
    ing "Помидоры" 100 "g";
    ing "Огурец" 1 "шт";
    ing "Оливковое масло" 15 "ml";
    ing "Лимонный сок" 15 "ml" ];
  r_instructions := [
    u "Промыть салат и овощи";
    u "Нарезать овощи";
    u "Смешать в миске";
    u "Приправить маслом и лимоном" ]
|}.

Definition r_003 : Recipe := {|
  r_id := u "r_003";
  r_name := u "Рыба на гриле";
  r_description := u "Белая рыба с минимумом пуринов";
  r_calories := 280; r_proteins := 38; r_fats := 12; r_carbs := 2;
  glycemic_index := 10;
  purines := 120;
  suitable_for_diabetes := true;
  suitable_for_gout := false;
  suitable_for_celiac := true;
  r_ingredients := [
    ing "Морская рыба" 300 "g";
    ing "Лимон" 1 "шт";
    ing "Зелень" 20 "g" ];
  r_instructions := [
    u "Подготовить рыбу";
    u "Выложить на гриль";
    u "Готовить 12-15 минут";
    u "Украсить лимоном и зеленью" ]
|}.

Definition MOCK_RECIPES : list Recipe := [r_001; r_002; r_003].

(** ** RecipeService *)

(** One iteration of the loop of [_filter_by_diagnosis]: each [continue]
    leaves [filtered] as it is, the last statement appends. *)
Definition filter_step (has_diabetes has_gout has_celiac : bool)
    (filtered : list Recipe) (recipe : Recipe) : list Recipe :=
  if has_diabetes && (glycemic_index recipe >? 60) then filtered
  else if has_gout && (purines recipe >? 100) then filtered
  else if has_celiac && negb (suitable_for_celiac recipe) then filtered
  else filtered ++ [recipe].

Definition _filter_by_diagnosis (recipes : list Recipe)
    (has_diabetes has_gout has_celiac : bool) : list Recipe :=
  fold_left (filter_step has_diabetes has_gout has_celiac) recipes [].

Section RecipeSearch.
Context {L : Lowercase}.

Definition search_recipes (query : pystr)
    (has_diabetes has_gout has_celiac : bool) (limit : Z) : list Recipe :=
  let query_lower := strip (lower query) in
  let matching_recipes :=
    List.filter
      (fun recipe =>
         contains query_lower (lower (r_name recipe))
         || existsb (fun i => contains query_lower (lower (ing_name i)))
              (r_ingredients recipe))
      MOCK_RECIPES in
  let filtered_recipes :=
    _filter_by_diagnosis matching_recipes has_diabetes has_gout has_celiac in
  py_slice_to filtered_recipes limit.

End RecipeSearch.

#[export] Instance fixture_lower : Lowercase := cyrillic_lower.


(** ** Numbers

    A finite Python float is embedded as the number it denotes: a real
    number for positions and distances, a rational for prices.  A
    comparison of two floats is the comparison of these numbers.  The
    operations whose result the binary64 format rounds to a representable
    value are not fixed by the embedding: the services take them from the
    class [Float64], so that what is proved of a service for an arbitrary
    instance holds of the arithmetic of the interpreter.  Infinities, NaN
    and overflow are outside the embedding. *)
Class Float64 := {
  float_sub : R -> R -> R;        (* [a - b] *)
  float_mul : R -> R -> R;        (* [a * b] *)
  float_add : R -> R -> R;        (* [a + b] *)
  float_pow : R -> R -> R;        (* [a ** b] *)
  float_round : R -> nat -> R;    (* [round(a, ndigits)] *)
  float_literal : Q -> R;         (* a decimal literal of the source *)
  price_div : Q -> Q -> Q;        (* [a / b] on prices *)
  price_round : Q -> nat -> Q     (* [round(a, ndigits)] on prices *)
}.

(** *** Arithmetic without representation error

    The instance [exact_arith] computes every operation exactly; the
    examples are run with it. *)

(** [round(x, 2)] on prices: nearest multiple of 1/100, a tie going to
    the even neighbour. *)
Definition round_half_even_Q (x : Q) : Z :=
  let f := Qfloor x in
  match (x - inject_Z f ?= 1 # 2)%Q with
  | Lt => f
  | Gt => f + 1
  | Eq => if Z.even f then f else f + 1
  end.

Definition py_round_Q (x : Q) (ndigits : nat) : Q :=
  (inject_Z (round_half_even_Q (x * inject_Z (10 ^ Z.of_nat ndigits)))
   / inject_Z (10 ^ Z.of_nat ndigits))%Q.

(** The same operation on distances. *)
Definition round_half_even (x : R) : Z :=
  let f := Int_part x in
  if Rlt_dec (frac_part x) (1 / 2) then f
  else if Rlt_dec (1 / 2) (frac_part x) then f + 1
  else if Z.even f then f else f + 1.

Definition py_round (x : R) (ndigits : nat) : R :=
  (IZR (round_half_even (x * 10 ^ ndigits)) / 10 ^ ndigits)%R.

(** [x ** y] for the two exponents of the source, the square and the
    square root. *)
Definition exact_pow (x y : R) : R :=
  if Req_dec_T y 2 then (x ^ 2)%R
  else if Req_dec_T y 0.5 then sqrt x
  else Rpower x y.

#[export] Instance exact_arith : Float64 := {|
  float_sub := Rminus;
  float_mul := Rmult;
  float_add := Rplus;
  float_pow := exact_pow;
  float_round := py_round;
  float_literal := Q2R;
  price_div := Qdiv;
  price_round := py_round_Q
|}.

(** [list.sort(key=...)] is a stable sort: the items come out in
    ascending key order, items of equal key in their original order.  It
    is embedded as the insertion sort with that behaviour. *)
Fixpoint insert_by_key {A} (key : A -> R) (x : A) (l : list A) : list A :=
  match l with
  | [] => [x]
  | y :: l' =>
      if Rle_dec (key x) (key y) then x :: y :: l'
      else y :: insert_by_key key x l'
  end.

Fixpoint sort_by_key {A} (key : A -> R) (l : list A) : list A :=
  match l with
  | [] => []
  | x :: l' => insert_by_key key x (sort_by_key key l')
  end.

(** ** Shop catalogue and price table *)

Record Shop := {
  s_id : pystr;
  s_name : pystr;
  s_latitude : Q;
  s_longitude : Q;
  s_address : pystr;
  s_rating : Q;
  working_hours : pystr
}.

Definition shop_001 : Shop := {|
  s_id := u "shop_001";
  s_name := u "Пятёрочка на Красной площади";
  s_latitude := 55.7558;
  s_longitude := 37.6173;
  s_address := u "Москва, Красная площадь, 1";
  s_rating := 4.7;
  working_hours := u "08:00-23:00"
|}.

Definition shop_002 : Shop := {|
  s_id := u "shop_002";
  s_name := u "Магнит";
  s_latitude := 55.7500;
  s_longitude := 37.6200;
  s_address := u "Москва, Тверская, 15";
  s_rating := 4.5;
  working_hours := u "07:00-23:00"
|}.

Definition shop_003 : Shop := {|
  s_id := u "shop_003";
  s_name := u "Дикси";
  s_latitude := 55.7600;
  s_longitude := 37.6100;
  s_address := u "Москва, Охотный ряд, 2";
  s_rating := 4.3;
  working_hours := u "06:00-23:00"
|}.

Definition MOCK_SHOPS : list Shop := [shop_001; shop_002; shop_003].

(** Dictionaries whose iteration order matters are association lists in
    insertion order. *)
Fixpoint dict_get {V} (k : pystr) (d : list (pystr * V)) : option V :=
  match d with
  | [] => None
  | (k', v) :: d' => if decide (k = k') then Some v else dict_get k d'
  end.

(** [d[k] = v]: an existing key keeps its position, a new key is
    appended. *)
Fixpoint dict_set {V} (k : pystr) (v : V) (d : list (pystr * V))
    : list (pystr * V) :=
  match d with
  | [] => [(k, v)]
  | (k', v') :: d' =>
      if decide (k = k') then (k, v) :: d' else (k', v') :: dict_set k v d'
  end.

Definition price_row (n : string) (p : Q) : pystr * Q := (u n, p).

Definition MOCK_PRICES : list (pystr * list (pystr * Q)) := [
  (u "shop_001", [
     price_row "Куриное филе" 289;
     price_row "Брокколи" 49;
     price_row "Салат" 35;
     price_row "Помидоры" 45;
     price_row "Огурец" 15;
     price_row "Оливковое масло" 320 ]);
  (u "shop_002", [
     price_row "Куриное филе" 269;
     price_row "Брокколи" 59;
     price_row "Салат" 39;
     price_row "Помидоры" 49;
     price_row "Огурец" 18;
     price_row "Оливковое масло" 299 ]);
  (u "shop_003", [
     price_row "Куриное филе" 299;
     price_row "Брокколи" 44;
     price_row "Салат" 32;
     price_row "Помидоры" 42;
     price_row "Огурец" 12;
     price_row "Оливковое масло" 340 ])
].

(** ** ShopService: locator *)

(** [shop.copy()] extended with the key [distance_km]. *)
Record ShopData := {
  sd_shop : Shop;
  distance_km : R
}.

Section Locator.
Context {F : Float64}.

(** Every operator of the body is the float operation; the integer 111
    is converted to the float of the same value. *)
Definition _calculate_distance (lat1 lon1 lat2 lon2 : R) : R :=
  let lat_diff := float_mul (float_sub lat2 lat1) 111%R in
  let lon_diff := float_mul (float_sub lon2 lon1) 111%R in
  let distance :=
    float_pow
      (float_add (float_pow lat_diff 2%R) (float_pow lon_diff 2%R)) 0.5%R in
  distance.

(** The coordinates of a shop are float literals of the catalogue. *)
Definition nearby_step (latitude longitude radius_km : R)
    (shops_with_distance : list ShopData) (shop : Shop) : list ShopData :=
  let distance :=
    _calculate_distance latitude longitude
      (float_literal (s_latitude shop)) (float_literal (s_longitude shop)) in
  if Rle_dec distance radius_km then
    shops_with_distance
      ++ [{| sd_shop := shop; distance_km := float_round distance 2 |}]
  else shops_with_distance.

Definition find_nearby_shops (latitude longitude radius_km : R) (limit : Z)
    : list ShopData :=
  let shops_with_distance :=
    fold_left (nearby_step latitude longitude radius_km) MOCK_SHOPS [] in
  let shops_with_distance := sort_by_key distance_km shops_with_distance in
  py_slice_to shops_with_distance limit.

End Locator.

(** ** ShopService: pricing *)

(** The dictionary built for one shop by [get_prices_for_recipe]; the key
    [shop_id] is absent until [find_cheapest_shop] adds it. *)
Record PriceEntry := {
  shop_name : pystr;
  total_price : Q;
  found_ingredients : Z;
  total_ingredients : Z;
  price_per_serving : Q;
  address : pystr;
  rating : Q;
  shop_id : option pystr
}.

(** Body of the inner loop; the state is [(total_price, found_ingredients)].
    [if price_per_unit:] is false for [None] and for a price of zero. *)
Definition price_step (shop_prices : list (pystr * Q)) (acc : Q * Z)
    (ingredient : Ingredient) : Q * Z :=
  let ingredient_name := ing_name ingredient in
  let amount := ing_amount ingredient in
  match dict_get ingredient_name shop_prices with
  | Some price_per_unit =>
      if Qeq_bool price_per_unit 0 then acc
      else ((acc.1 + price_per_unit)%Q, acc.2 + 1)
  | None => acc
  end.

Section Pricing.
Context {F : Float64}.

(** The prices of the table are whole numbers, so the running total is
    their exact sum; the quotient and its rounding are float operations. *)
Definition shop_quote (ingredients : list Ingredient) (shop : Shop)
    : PriceEntry :=
  let shop_prices := default [] (dict_get (s_id shop) MOCK_PRICES) in
  let '(total_price, found_ingredients) :=
    fold_left (price_step shop_prices) ingredients (0%Q, 0) in
  {| shop_name := s_name shop;
     total_price := total_price;
     found_ingredients := found_ingredients;
     total_ingredients := Z.of_nat (length ingredients);
     price_per_serving :=
       match ingredients with
       | [] => 0
       | _ :: _ =>
           price_round
             (price_div total_price
                (inject_Z (Z.of_nat (length ingredients)))) 2
       end;
     address := s_address shop;
     rating := s_rating shop;
     shop_id := None |}.

Definition get_prices_for_recipe (recipe_id : pystr)
    (ingredients : list Ingredient) : list (pystr * PriceEntry) :=
  fold_left
    (fun prices_by_shop shop =>
       dict_set (s_id shop) (shop_quote ingredients shop) prices_by_shop)
    MOCK_SHOPS [].

End Pricing.

(** *** The object store

    [find_cheapest_shop] writes into a dictionary that its caller still
    holds, so price dictionaries live in a store and a price map holds
    references to them. *)
Definition loc := positive.
Abbreviation store := (gmap loc PriceEntry).
Abbreviation price_map := (list (pystr * loc)).

(** A computation on the store; it is undefined only when a reference is
    dangling, which no Python program can produce. *)
Definition Mem (A : Type) : Type := store -> option (A * store).

Definition set_shop_id (k : pystr) (e : PriceEntry) : PriceEntry :=
  {| shop_name := shop_name e;
     total_price := total_price e;
     found_ingredients := found_ingredients e;
     total_ingredients := total_ingredients e;
     price_per_serving := price_per_serving e;
     address := address e;
     rating := rating e;
     shop_id := Some k |}.

(** [x[1]["total_price"]], the key function of the [min] call. *)
Definition item_price (h : store) (x : pystr * loc) : option Q :=
  total_price <$> h !! x.2.

(** The loop of the builtin [min(iterable, key=...)]: the running minimum
    is replaced only by an item whose key is strictly smaller. *)
Fixpoint min_from {A} (key : A -> option Q) (best : A) (best_key : Q)
    (rest : list A) : option A :=
  match rest with
  | [] => Some best
  | item :: rest' =>
      k ← key item;
      if Qlt_le_dec k best_key then min_from key item k rest'
      else min_from key best best_key rest'
  end.

Definition py_min {A} (key : A -> option Q) (items : list A) : option A :=
  match items with
  | [] => None
  | first :: rest => k ← key first; min_from key first k rest
  end.

Definition find_cheapest_shop (prices_by_shop : price_map)
    : Mem (option loc) :=
  fun h =>
    match prices_by_shop with
    | [] => Some (None, h)
    | _ :: _ =>
        cheapest ← py_min (item_price h) prices_by_shop;
        let '(shop_id, shop_ref) := cheapest in
        shop_data ← h !! shop_ref;
        Some (Some shop_ref, <[shop_ref := set_shop_id shop_id shop_data]> h)
    end.

(** Placing the freshly built dictionaries of a price map in the store,
    as the caller of [get_prices_for_recipe] receives them. *)
Fixpoint alloc_prices (d : list (pystr * PriceEntry)) (h : store)
    : price_map * store :=
  match d with
  | [] => ([], h)
  | (k, e) :: d' =>
      let l := fresh (dom h) in
      let '(m, h') := alloc_prices d' (<[l := e]> h) in
      ((k, l) :: m, h')
  end.

(** ** GPTService *)

Module Gpt.

(** What [openai.ChatCompletion.create] can do: answer, or raise. *)
Inductive exn :=
  | APIError
  | APIConnectionError
  | OtherException.

Inductive outcome :=
  | Answer (content : pystr)
  | Raise (e : exn).

(** The upstream service, by request number and prompt. *)
Definition upstream := nat -> pystr -> outcome.

Record state := {
  requests : nat;       (* calls of [ChatCompletion.create] so far *)
  sleeps : list Z       (* the waits of the retry wrapper, in order *)
}.

Definition apology_api : pystr :=
  u "❌ Извините, диетолог временно недоступен. Пожалуйста, попробуйте позже.".

Definition apology_other : pystr :=
  u "❌ Произошла ошибка. Попробуйте позже.".

Fixpoint join (sep : pystr) (parts : list pystr) : pystr :=
  match parts with
  | [] => []
  | [p] => p
  | p :: ps => p ++ sep ++ join sep ps
  end.

Definition full_prompt (question : pystr)
    (has_diabetes has_gout has_celiac : bool) : pystr :=
  let diagnoses :=
    (if has_diabetes then [u "сахарный диабет"] else [])
    ++ (if has_gout then [u "подагра"] else [])
    ++ (if has_celiac then [u "целиакия"] else []) in
  let diagnosis_context :=
    match diagnoses with
    | [] => u "Пользователь без специальных диагнозов. "
    | _ :: _ => u "Пользователь имеет: " ++ join (u ", ") diagnoses ++ u ". "
    end in
  diagnosis_context ++ [10%N]
    ++ u "Вопрос: " ++ question ++ [10%N]
    ++ u "Ответьте с учётом здоровья пользователя.".

(** Result of a Python call: a value, or an exception leaving the call. *)
Inductive result (A : Type) :=
  | Returned (a : A)
  | Raised (e : exn)
  | RetryError.
Arguments Returned {A} a.
Arguments Raised {A} e.
Arguments RetryError {A}.

Section Service.
Variable server : upstream.
(** Whether [APIConnectionError] derives from [APIError] depends on the
    installed client library. *)
Variable connection_is_api_error : bool.

Definition isinstance_APIError (e : exn) : bool :=
  match e with
  | APIError => true
  | APIConnectionError => connection_is_api_error
  | OtherException => false
  end.

(** The function under the decorator: its [try] has a handler for
    [openai.APIError] and one for [Exception]. *)
Definition ask_dietician_body (question : pystr)
    (has_diabetes has_gout has_celiac : bool) (st : state)
    : result pystr * state :=
  let prompt := full_prompt question has_diabetes has_gout has_celiac in
  let st' := {| requests := S (requests st); sleeps := sleeps st |} in
  match server (requests st) prompt with
  | Answer content => (Returned (strip content), st')
  | Raise e =>
      if isinstance_APIError e then (Returned apology_api, st')
      else (Returned apology_other, st')
  end.

(** [retry_if_exception_type((openai.APIError, openai.APIConnectionError))] *)
Definition retry_on (e : exn) : bool :=
  match e with
  | APIError | APIConnectionError => true
  | OtherException => false
  end.

(** [wait_exponential(multiplier=1, min=2, max=10)] after the given
    attempt number. *)
Definition wait_exponential (attempt_number : nat) : Z :=
  Z.max 2 (Z.min (1 * 2 ^ Z.of_nat (attempt_number - 1)) 10).

(** The [@retry] wrapper with [stop_after_attempt(stop)]: the wrapped
    function runs again only when it raised an exception selected by
    [retry_on]; any other exception leaves the wrapper, and when the
    attempts are used up the wrapper raises [RetryError]. *)
Fixpoint retrying {A} (f : state -> result A * state)
    (attempt_number remaining : nat) (st : state) : result A * state :=
  match f st with
  | (Returned a, st') => (Returned a, st')
  | (Raised e, st') =>
      if retry_on e then
        match remaining with
        | O => (RetryError, st')
        | S remaining' =>
            retrying f (S attempt_number) remaining'
              {| requests := requests st';
                 sleeps := sleeps st' ++ [wait_exponential attempt_number] |}
        end
      else (Raised e, st')
  | (RetryError, st') => (RetryError, st')
  end.

Definition ask_dietician (question : pystr)
    (has_diabetes has_gout has_celiac : bool) : state -> result pystr * state :=
  retrying
    (ask_dietician_body question has_diabetes has_gout has_celiac) 1 2.

End Service.

(** An upstream service whose first request fails with a connection
    error and whose later requests answer. *)
Definition flaky_server : upstream :=
  fun n _ =>
    match n with
    | O => Raise APIConnectionError
    | S _ => Answer (u "Ешьте больше овощей.")
    end.

End Gpt.

(** ** Handlers: the conversation state machine *)

Module Handlers.

(** The profile row read by the handlers. *)
Record User := {
  telegram_id : Z;
  first_name : pystr;
  has_diabetes : bool;
  has_gout : bool;
  has_celiac : bool
}.

Record Message := {
  from_user_id : Z;
  chat_id : Z;
  text : pystr
}.

Record Callback := {
  call_id : Z;
  call_from_user_id : Z;
  call_chat_id : Z;
  data : string
}.

Record DiaryEntry := {
  d_recipe_name : pystr;
  d_calories : Z
}.

(** What is sent to a chat.  The texts are fixed by their constructor and
    its arguments; their formatting is not embedded. *)
Inductive Payload :=
  | AskForQuery                       (* "Введите ингредиенты или название блюда" *)
  | AskForLocation                    (* "Отправьте вашу геолокацию" *)
  | AskForQuestion                    (* "Спросите у AI-диетолога" *)
  | DiaryText (entries : list DiaryEntry)
  | DiaryEmpty
  | SettingsStub
  | Searching (query : pystr)         (* "Ищем рецепты для '{query}'..." *)
  | RecipesFound (recipes : list Recipe)
  | RecipesNotFound
  | Thinking                          (* "Диетолог думает..." *)
  | Advice (response : pystr)
  | MainMenu                          (* text with [create_main_keyboard()] *)
  | ProcessingError.                  (* "Ошибка обработки. Попробуйте позже." *)

Inductive Sent :=
  | SendMessage (chat : Z) (p : Payload)
  | AnswerCallback (id : Z).

(** The process-wide dictionary [user_state] together with what the
    handlers have done to their collaborators. *)
Record World := {
  user_state : gmap Z (gmap string string);
  sent : list Sent;
  transport_calls : nat;
  gpt : Gpt.state
}.

(** A handler step: [None] is an exception on its way out. *)
Definition H (A : Type) : Type := World -> option A * World.

Definition ret {A} (a : A) : H A := fun w => (Some a, w).

Definition bind {A B} (m : H A) (k : A -> H B) : H B :=
  fun w =>
    match m w with
    | (Some a, w') => k a w'
    | (None, w') => (None, w')
    end.

Definition raise {A} : H A := fun w => (None, w).

(** [try: body except Exception: handler] *)
Definition try_except {A} (body handler : H A) : H A :=
  fun w =>
    match body w with
    | (Some a, w') => (Some a, w')
    | (None, w') => handler w'
    end.

#[export] Instance handler_ret : MRet H := @ret.
#[export] Instance handler_bind : MBind H := fun A B k m => bind m k.

(** [user_state[user_id]] when [user_id in user_state]. *)
Definition get_state (uid : Z) : H (option (gmap string string)) :=
  fun w => (Some (user_state w !! uid), w).

Definition set_state (uid : Z) (d : gmap string string) : H unit :=
  fun w =>
    (Some tt,
     {| user_state := <[uid := d]> (user_state w);
        sent := sent w;
        transport_calls := transport_calls w;
        gpt := gpt w |}).

(** [del user_state[user_id]]; a missing key is a [KeyError]. *)
Definition del_state (uid : Z) : H unit :=
  fun w =>
    match user_state w !! uid with
    | Some _ =>
        (Some tt,
         {| user_state := delete uid (user_state w);
            sent := sent w;
            transport_calls := transport_calls w;
            gpt := gpt w |})
    | None => (None, w)
    end.

Section Bot.
Context {L : Lowercase}.
(** The collaborators: the transport accepts or refuses its n-th call,
    the persistence layer returns the profile or fails, the language
    model answers or raises; [max_recipe_results] is a setting. *)
Variable transport_ok : nat -> bool.
Variable get_or_create_user : Message -> option User.
Variable diary_query : Z -> option (list DiaryEntry).
Variable server : Gpt.upstream.
Variable connection_is_api_error : bool.
Variable max_recipe_results : Z.

Definition transport (s : Sent) : H unit :=
  fun w =>
    let n := transport_calls w in
    if transport_ok n then
      (Some tt,
       {| user_state := user_state w;
          sent := sent w ++ [s];
          transport_calls := S n;
          gpt := gpt w |})
    else
      (None,
       {| user_state := user_state w;
          sent := sent w;
          transport_calls := S n;
          gpt := gpt w |}).

Definition send_message (chat : Z) (p : Payload) : H unit :=
  transport (SendMessage chat p).

Definition answer_callback_query (id : Z) : H unit :=
  transport (AnswerCallback id).

Definition lift_option {A} (o : option A) : H A :=
  fun w => (o, w).

Definition call_ask_dietician (question : pystr) (d g c : bool) : H pystr :=
  fun w =>
    match Gpt.ask_dietician server connection_is_api_error question d g c
            (gpt w) with
    | (r, st) =>
        (match r with Gpt.Returned s => Some s | _ => None end,
         {| user_state := user_state w;
            sent := sent w;
            transport_calls := transport_calls w;
            gpt := st |})
    end.

Definition handle_callback (call : Callback) : H unit :=
  try_except
    (answer_callback_query (call_id call);;
     if String.eqb (data call) "search_recipe" then
       send_message (call_chat_id call) AskForQuery;;
       set_state (call_from_user_id call) {["action" := "search_recipe"]}
     else if String.eqb (data call) "find_shops" then
       send_message (call_chat_id call) AskForLocation;;
       set_state (call_from_user_id call) {["action" := "find_shops"]}
     else if String.eqb (data call) "view_diary" then
       diary_entries ← lift_option (diary_query (call_from_user_id call));
       match diary_entries with
       | _ :: _ => send_message (call_chat_id call) (DiaryText diary_entries)
       | [] => send_message (call_chat_id call) DiaryEmpty
       end
     else if String.eqb (data call) "ask_dietician" then
       send_message (call_chat_id call) AskForQuestion;;
       set_state (call_from_user_id call) {["action" := "ask_dietician"]}
     else if String.eqb (data call) "settings" then
       send_message (call_chat_id call) SettingsStub
     else ret tt)
    (send_message (call_chat_id call) ProcessingError).

Definition handle_text (message : Message) : H unit :=
  let user_id := from_user_id message in
  try_except
    (user ← lift_option (get_or_create_user message);
     entry ← get_state user_id;
     match entry with
     | Some entry =>
         let action := entry !! "action" in
         if decide (action = Some "search_recipe") then
           let query := text message in
           send_message (chat_id message) (Searching query);;
           let recipes :=
             search_recipes query (has_diabetes user) (has_gout user)
               (has_celiac user) max_recipe_results in
           match recipes with
           | _ :: _ => send_message (chat_id message) (RecipesFound recipes)
           | [] => send_message (chat_id message) RecipesNotFound
           end;;
           del_state user_id
         else if decide (action = Some "ask_dietician") then
           send_message (chat_id message) Thinking;;
           response ← call_ask_dietician (text message)
                         (has_diabetes user) (has_gout user)
                         (has_celiac user);
           send_message (chat_id message) (Advice response);;
           del_state user_id
         else ret tt
     | None => send_message (chat_id message) MainMenu
     end)
    (send_message (chat_id message) ProcessingError).

End Bot.

(** A profile, a message and worlds used to run the handlers: every
    collaborator succeeds, the sender is user 42 in chat 7. *)
Definition demo_user : User :=
  {| telegram_id := 42; first_name := u "Анна";
     has_diabetes := true; has_gout := false; has_celiac := false |}.

Definition demo_message (txt : pystr) : Message :=
  {| from_user_id := 42; chat_id := 7; text := txt |}.

Definition awaiting (action : string) : World :=
  {| user_state := {[ 42 := {[ "action" := action ]} ]};
     sent := [];
     transport_calls := 0;
     gpt := {| Gpt.requests := 0; Gpt.sleeps := [] |} |}.

Definition idle_world : World :=
  {| user_state := ∅;
     sent := [];
     transport_calls := 0;
     gpt := {| Gpt.requests := 0; Gpt.sleeps := [] |} |}.

Definition always_ok : nat -> bool := fun _ => true.
Definition db_ok : Message -> option User := fun _ => Some demo_user.
Definition quiet_server : Gpt.upstream := fun _ _ => Gpt.Answer [].

End Handlers.

(** ** Specification-level definitions *)

(** The three rules in the words of the specification. *)
Definition diabetes_rule (has_diabetes : bool) (r : Recipe) : bool :=
  implb has_diabetes (glycemic_index r <=? 60).

Definition gout_rule (has_gout : bool) (r : Recipe) : bool :=
  implb has_gout (purines r <=? 100).

Definition celiac_rule (has_celiac : bool) (r : Recipe) : bool :=
  implb has_celiac (suitable_for_celiac r).

Definition passes_diagnosis (d g c : bool) (r : Recipe) : bool :=
  diabetes_rule d r && gout_rule g r && celiac_rule c r.


Section SearchSpec.
Context {L : Lowercase}.

(** A recipe matches a needle when the needle occurs in its
    lower-cased name or in the lower-cased name of an ingredient. *)
Definition matches_query (needle : pystr) (r : Recipe) : bool :=
  contains needle (lower (r_name r))
  || existsb (fun i => contains needle (lower (ing_name i)))
       (r_ingredients r).

(** The search as the specification words it: the needle is the
    lower-cased query, the result the first [limit] entries. *)
Definition search_as_stated (q : pystr) (d g c : bool) (limit : Z)
    : list Recipe :=
  take (Z.to_nat limit)
    (List.filter
       (fun r => matches_query (lower q) r && passes_diagnosis d g c r)
       MOCK_RECIPES).

(** The search with the needle that the code uses: the lower-cased
    query with surrounding whitespace removed. *)
Definition search_stripped (q : pystr) (d g c : bool) (limit : Z)
    : list Recipe :=
  take (Z.to_nat limit)
    (List.filter
       (fun r =>
          matches_query (strip (lower q)) r && passes_diagnosis d g c r)
       MOCK_RECIPES).

End SearchSpec.

Section LocatorSpec.
Context {F : Float64}.

(** The planar distance of the specification,
    [sqrt(((lat2-lat1)*111)^2 + ((lon2-lon1)*111)^2)], from a position to
    a catalogue shop, each operation being the float one: one degree of
    latitude and one degree of longitude both count 111 km. *)
Definition planar_distance (lat lon : R) (shop : Shop) : R :=
  float_pow
    (float_add
       (float_pow
          (float_mul (float_sub (float_literal (s_latitude shop)) lat) 111%R)
          2%R)
       (float_pow
          (float_mul (float_sub (float_literal (s_longitude shop)) lon) 111%R)
          2%R))
    0.5%R.

Definition in_radius (lat lon radius_km : R) (shop : Shop) : bool :=
  if Rle_dec (planar_distance lat lon shop) radius_km then true else false.

(** The record reported for a shop: the shop with its distance rounded
    to two decimals. *)
Definition with_distance (lat lon : R) (shop : Shop) : ShopData :=
  {| sd_shop := shop;
     distance_km := float_round (planar_distance lat lon shop) 2 |}.

(** The catalogue shops within the radius, as reported, in ascending
    order of the reported distance. *)
Definition in_radius_sorted (lat lon r : R) : list ShopData :=
  sort_by_key distance_km
    (map (with_distance lat lon) (List.filter (in_radius lat lon r) MOCK_SHOPS)).

End LocatorSpec.

(** The items whose sort key is [v]. *)
Definition has_key {A} (key : A -> R) (v : R) (a : A) : bool :=
  if Req_dec_T (key a) v then true else false.

Definition by_distance (a b : ShopData) : Prop :=
  (distance_km a <= distance_km b)%R.

(** The price table of a shop, and the sum of the table prices of the
    ingredients whose name is a key of the table. *)
Definition shop_price_table (shop : Shop) : list (pystr * Q) :=
  default [] (dict_get (s_id shop) MOCK_PRICES).

Definition matched_total (shop_prices : list (pystr * Q))
    (ingredients : list Ingredient) : Q :=
  fold_right
    (fun i acc => (default 0 (dict_get (ing_name i) shop_prices) + acc)%Q)
    0%Q ingredients.

(** An ingredient list outside the catalogue. *)
Definition three_items : list Ingredient :=
  [ing "Куриное филе" 300 "g"; ing "Брокколи" 200 "g"; ing "Огурец" 1 "шт"].


(** Every reference of a price map points to a dictionary of the store. *)
Definition refs_valid (h : store) (m : price_map) : Prop :=
  Forall (fun x => is_Some (h !! x.2)) m.

(** The total price read through a reference is above (strictly above)
    a bound. *)
Definition price_ge (h : store) (bound : Q) (x : pystr * loc) : Prop :=
  exists e, h !! x.2 = Some e /\ (bound <= total_price e)%Q.

Definition price_gt (h : store) (bound : Q) (x : pystr * loc) : Prop :=
  exists e, h !! x.2 = Some e /\ (bound < total_price e)%Q.

(** A store holding the quotes of the first catalogue recipe, and the
    price map referring to them. *)
Definition quotes_store : store :=
  <[1%positive := shop_quote (r_ingredients r_001) shop_001]>
    (<[2%positive := shop_quote (r_ingredients r_001) shop_002]>
       (<[3%positive := shop_quote (r_ingredients r_001) shop_003]> ∅)).

Definition quotes_map : price_map :=
  [(s_id shop_001, 1%positive); (s_id shop_002, 2%positive);
   (s_id shop_003, 3%positive)].

(** ** Further operations of the services *)

(** [RecipeService.get_recipe_details]: the loop returns the first
    catalogue recipe whose id equals the argument, [None] when the loop
    ends without a match. *)
Fixpoint first_with_id (recipe_id : pystr) (recipes : list Recipe)
    : option Recipe :=
  match recipes with
  | [] => None
  | recipe :: rest =>
      if decide (r_id recipe = recipe_id) then Some recipe
      else first_with_id recipe_id rest
  end.

Definition get_recipe_details (recipe_id : pystr) : option Recipe :=
  first_with_id recipe_id MOCK_RECIPES.

(** An ingredient counts as found in a price table when the table has a
    non-zero price under exactly its name. *)
Definition priced (shop_prices : list (pystr * Q)) (i : Ingredient) : bool :=
  match dict_get (ing_name i) shop_prices with
  | Some p => negb (Qeq_bool p 0)
  | None => false
  end.

(** The ingredients of the first recipe with other amounts and units. *)
Definition r_001_doubled : list Ingredient :=
  map (fun i => {| ing_name := ing_name i;
                   ing_amount := 2 * ing_amount i;
                   ing_unit := u "kg" |})
    (r_ingredients r_001).

(** [ShopService.calculate_recipe_cost]: the quotes are built, placed in
    the store, searched for the cheapest; the nearby shops are looked up
    with the default radius 2.0 and [limit=3].  The result dictionary
    holds the price map itself under [all_prices]. *)
Record RecipeCost := {
  recipe_name : pystr;
  cheapest_shop : option loc;
  nearby_shops : list ShopData;
  all_prices : price_map
}.

Section RecipeCostService.
Context {F : Float64}.

Definition calculate_recipe_cost (recipe : Recipe) (latitude longitude : R)
    : Mem RecipeCost :=
  fun h =>
    let '(prices, h1) :=
      alloc_prices
        (get_prices_for_recipe (r_id recipe) (r_ingredients recipe)) h in
    match find_cheapest_shop prices h1 with
    | Some (cheapest, h2) =>
        let nearby_shops := find_nearby_shops latitude longitude 2 3 in
        Some ({| recipe_name := r_name recipe;
                 cheapest_shop := cheapest;
                 nearby_shops := nearby_shops;
                 all_prices := prices |}, h2)
    | None => None
    end.

End RecipeCostService.

(** The three menu actions that leave a pending action behind, with the
    prompt each one sends. *)
Definition pending_prompt (data : string) : option Handlers.Payload :=
  if String.eqb data "search_recipe" then Some Handlers.AskForQuery
  else if String.eqb data "find_shops" then Some Handlers.AskForLocation
  else if String.eqb data "ask_dietician" then Some Handlers.AskForQuestion
  else None.

(** The user-state entries of every user but one are the same in two
    worlds. *)
Definition same_for_others (uid : Z) (w w' : Handlers.World) : Prop :=
  forall other, other <> uid ->
    Handlers.user_state w' !! other = Handlers.user_state w !! other.

Definition demo_call (tag : string) : Handlers.Callback :=
  {| Handlers.call_id := 1; Handlers.call_from_user_id := 42;
     Handlers.call_chat_id := 7; Handlers.data := tag |}.

(** A handler step that leaves the entries of all other users alone. *)
Definition preserves (uid : Z) {A} (m : Handlers.H A) : Prop :=
  forall w, same_for_others uid w (m w).2.

(** A transport that refuses its first call only. *)
Definition refuse_first : nat -> bool :=
  fun n => match n with O => false | S _ => true end.


(** [str(n)] for an integer: decimal digits, with a minus sign when
    negative. *)
Definition py_str_int (z : Z) : pystr :=
  map byte_val (String.list_ascii_of_string (NilZero.string_of_int (Z.to_int z))).

(** [GPTService.generate_meal_plan]: the prompt is built first; the one
    request is inside [try], and its handler for [Exception] returns the
    failure text.  There is no retry wrapper on this function. *)
Definition plan_failure : pystr := u "❌ Не удалось создать план питания.".

Definition meal_plan_prompt (days : Z)
    (has_diabetes has_gout has_celiac : bool) : pystr :=
  let diagnoses :=
    (if has_diabetes then [u "низкий гликемический индекс"] else [])
    ++ (if has_gout then [u "низкое содержание пуринов"] else [])
    ++ (if has_celiac then [u "без глютена"] else []) in
  let dietary_restrictions :=
    match diagnoses with
    | [] => u "Сбалансированный план питания."
    | _ :: _ =>
        u "План питания должен включать: " ++ Gpt.join (u ", ") diagnoses
          ++ u "."
    end in
  u "Создайте план питания на " ++ py_str_int days ++ u " дней. "
    ++ dietary_restrictions ++ u " "
    ++ u "Для каждого дня укажите завтрак, обед, ужин и перекус. "
    ++ u "Включите основные питательные показатели.".

Definition generate_meal_plan (server : Gpt.upstream) (days : Z)
    (has_diabetes has_gout has_celiac : bool) (st : Gpt.state)
    : Gpt.result pystr * Gpt.state :=
  let prompt := meal_plan_prompt days has_diabetes has_gout has_celiac in
  let st' := {| Gpt.requests := S (Gpt.requests st);
                Gpt.sleeps := Gpt.sleeps st |} in
  match server (Gpt.requests st) prompt with
  | Gpt.Answer content => (Gpt.Returned (strip content), st')
  | Gpt.Raise _ => (Gpt.Returned plan_failure, st')
  end.

(** The text that [log_message] of [setup_middleware] writes for a
    message: the first 50 characters and an ellipsis when the message is
    longer than 50, the message itself otherwise. *)
Definition log_preview (text : pystr) : pystr :=
  if (50 <? length text)%nat then take 50 text ++ u "..." else text.

(** * Properties *)

(** ** Strings and slices *)

Lemma contains_nil hay : contains [] hay = true.
Proof. destruct hay; reflexivity. Qed.

Lemma strip_nil : strip [] = [].
Proof. reflexivity. Qed.

Lemma py_slice_to_nonneg {A} (l : list A) limit :
  0 <= limit -> py_slice_to l limit = take (Z.to_nat limit) l.
Proof.
  intros Hl. unfold py_slice_to.
  destruct (Z.leb_spec 0 limit); [reflexivity | lia].
Qed.

Lemma py_slice_to_length {A} (l : list A) limit :
  Z.of_nat (length (py_slice_to l limit))
  = if 0 <=? limit then Z.min limit (Z.of_nat (length l))
    else Z.max 0 (Z.of_nat (length l) + limit).
Proof.
  unfold py_slice_to.
  destruct (Z.leb_spec 0 limit); rewrite length_take; lia.
Qed.

Lemma list_filter_sublist {A} (p : A -> bool) l : List.filter p l `sublist_of` l.
Proof.
  induction l as [|x l IH]; cbn; [constructor|].
  destruct (p x); by constructor.
Qed.

Lemma sublist_map {A B} (f : A -> B) l1 l2 :
  l1 `sublist_of` l2 -> map f l1 `sublist_of` map f l2.
Proof. induction 1; cbn [map]; by constructor. Qed.

Lemma py_slice_to_length_mono {A B} (l1 : list A) (l2 : list B) limit :
  (length l1 <= length l2)%nat ->
  (length (py_slice_to l1 limit) <= length (py_slice_to l2 limit))%nat.
Proof.
  intros Hle.
  pose proof (py_slice_to_length l1 limit) as H1.
  pose proof (py_slice_to_length l2 limit) as H2.
  destruct (0 <=? limit); lia.
Qed.

(** ** Recipe filter *)

Lemma filter_step_passes d g c filtered r :
  filter_step d g c filtered r
  = if passes_diagnosis d g c r then filtered ++ [r] else filtered.
Proof.
  unfold filter_step, passes_diagnosis, diabetes_rule, gout_rule, celiac_rule.
  rewrite !Z.gtb_ltb.
  destruct d, g, c; simpl;
    repeat match goal with
    | |- context [(?a <? ?b)] => destruct (Z.ltb_spec a b)
    | |- context [(?a <=? ?b)] => destruct (Z.leb_spec a b)
    end;
    try lia; try reflexivity; destruct (suitable_for_celiac r); reflexivity.
Qed.

Lemma fold_filter_step d g c recipes acc :
  fold_left (filter_step d g c) recipes acc
  = acc ++ List.filter (passes_diagnosis d g c) recipes.
Proof.
  revert acc. induction recipes as [|r recipes IH]; intros acc; simpl.
  - by rewrite app_nil_r.
  - rewrite IH, filter_step_passes.
    destruct (passes_diagnosis d g c r); [by rewrite <- app_assoc | done].
Qed.

Lemma filter_by_diagnosis_filter recipes d g c :
  _filter_by_diagnosis recipes d g c
  = List.filter (passes_diagnosis d g c) recipes.
Proof. unfold _filter_by_diagnosis. by rewrite fold_filter_step. Qed.

Lemma list_filter_filter {A} (p q : A -> bool) l :
  List.filter p (List.filter q l) = List.filter (fun x => q x && p x) l.
Proof.
  induction l as [|x l IH]; simpl; [done|].
  destruct (q x); simpl; [destruct (p x); by rewrite IH | done].
Qed.

Lemma list_filter_length_le {A} (p q : A -> bool) l :
  (forall x, p x = true -> q x = true) ->
  (length (List.filter p l) <= length (List.filter q l))%nat.
Proof.
  intros Hpq. induction l as [|x l IH]; simpl; [lia|].
  destruct (p x) eqn:Hp.
  - rewrite (Hpq x Hp). simpl. lia.
  - destruct (q x); simpl; lia.
Qed.

Lemma passes_diagnosis_true d g c r :
  passes_diagnosis d g c r = true <->
  (d = true -> glycemic_index r <= 60)
  /\ (g = true -> purines r <= 100)
  /\ (c = true -> suitable_for_celiac r = true).
Proof.
  unfold passes_diagnosis, diabetes_rule, gout_rule, celiac_rule.
  rewrite !andb_true_iff.
  destruct d, g, c; simpl; rewrite ?Z.leb_le; intuition congruence.
Qed.

Lemma passes_diagnosis_more d g c d' g' c' r :
  passes_diagnosis (d || d') (g || g') (c || c') r = true ->
  passes_diagnosis d g c r = true.
Proof.
  rewrite !passes_diagnosis_true.
  intros (Hd & Hg & Hc). repeat split; intros ->; auto.
Qed.

(** C2. The diagnosis rules act independently and a recipe is kept
    exactly when it passes every enabled rule: the result is the input
    filtered, in order, by the conjunction of the three rules; a recipe
    is in the result iff it is in the input and (diabetes set implies
    glycemic index at most 60) and (gout set implies purines at most 100)
    and (celiac set implies the celiac flag is true); and applying the
    three rules one after the other gives the same list. *)
Theorem filter_by_diagnosis_rules recipes d g c :
  _filter_by_diagnosis recipes d g c
  = List.filter (fun r => diabetes_rule d r && gout_rule g r && celiac_rule c r)
      recipes
  /\ (forall r,
        In r (_filter_by_diagnosis recipes d g c) <->
        In r recipes
        /\ (d = true -> ~ glycemic_index r > 60)
        /\ (g = true -> ~ purines r > 100)
        /\ (c = true -> suitable_for_celiac r <> false))
  /\ _filter_by_diagnosis recipes d g c
     = _filter_by_diagnosis
         (_filter_by_diagnosis
            (_filter_by_diagnosis recipes d false false) false g false)
         false false c.
Proof.
  split; [apply filter_by_diagnosis_filter|]. split.
  - intros r. rewrite filter_by_diagnosis_filter, filter_In.
    rewrite passes_diagnosis_true.
    destruct (suitable_for_celiac r); intuition (try lia; try congruence).
  - rewrite !filter_by_diagnosis_filter, !list_filter_filter.
    apply filter_ext. intros r.
    unfold passes_diagnosis, diabetes_rule, gout_rule, celiac_rule.
    destruct d, g, c; simpl;
      destruct (glycemic_index r <=? 60), (purines r <=? 100),
        (suitable_for_celiac r); reflexivity.
Qed.

(** ** Recipe search *)

Section SearchProps.
Context {L : Lowercase}.

Lemma search_recipes_unfold q d g c limit :
  search_recipes q d g c limit
  = py_slice_to
      (List.filter
         (fun r =>
            matches_query (strip (lower q)) r && passes_diagnosis d g c r)
         MOCK_RECIPES)
      limit.
Proof.
  unfold search_recipes. cbv zeta.
  by rewrite filter_by_diagnosis_filter, list_filter_filter.
Qed.

Lemma matches_query_empty r : matches_query [] r = true.
Proof. unfold matches_query. by rewrite contains_nil. Qed.

(** C1 (amended). For every query, flag combination and non-negative
    limit, [search_recipes] returns exactly the catalogue recipes whose
    lower-cased name, or the lower-cased name of one of their
    ingredients, contains the lower-cased query with its surrounding
    whitespace stripped, and that pass the diagnosis rules, in
    catalogue order, cut to the first [limit] entries; the empty query
    matches every recipe. *)
Theorem search_recipes_stripped q d g c limit :
  0 <= limit ->
  search_recipes q d g c limit = search_stripped q d g c limit
  /\ (forall r, matches_query (strip (lower [])) r = true)
  /\ search_recipes [] d g c limit
     = take (Z.to_nat limit)
         (List.filter (passes_diagnosis d g c) MOCK_RECIPES).
Proof.
  intros Hl. split; [|split].
  - rewrite search_recipes_unfold. by apply py_slice_to_nonneg.
  - intros r. rewrite lower_empty, strip_nil. apply matches_query_empty.
  - rewrite search_recipes_unfold, py_slice_to_nonneg by done.
    f_equal. apply filter_ext. intros r.
    by rewrite lower_empty, strip_nil, matches_query_empty.
Qed.

(** C8. Enabling further diagnosis flags never increases the number of
    recipes returned, whatever the query and the limit. *)
Theorem search_recipes_monotone q d g c d' g' c' limit :
  (length (search_recipes q (d || d') (g || g') (c || c') limit)
   <= length (search_recipes q d g c limit))%nat.
Proof.
  rewrite !search_recipes_unfold.
  apply py_slice_to_length_mono, list_filter_length_le.
  intros r. rewrite !andb_true_iff. intros [Hm Hp].
  split; [done|]. by eapply passes_diagnosis_more.
Qed.

End SearchProps.

Example contains_empty : contains [] (u "abc") = true.
Proof. reflexivity. Qed.

Example lower_kuritsa :
  lower (u "Курица") = u "курица".
Proof. vm_compute. reflexivity. Qed.

Example strip_spaces : strip (u "  рыба на гриле ") = u "рыба на гриле".
Proof. vm_compute. reflexivity. Qed.

Example search_kuritsa :
  search_recipes (u "курица") false false false 10 = [r_001].
Proof. vm_compute. reflexivity. Qed.

Example search_kuritsa_all_flags :
  search_recipes (u "КУРИЦА") true true true 10 = [r_001].
Proof. vm_compute. reflexivity. Qed.

Example search_maslo :
  search_recipes (u "масло") false false false 10 = [r_001; r_002].
Proof. vm_compute. reflexivity. Qed.

Example search_empty_gout :
  search_recipes [] false true false 10 = [r_001; r_002].
Proof. vm_compute. reflexivity. Qed.

(** The claim as worded fails on a query with surrounding whitespace
    (the code strips it before matching) and on a negative limit (the
    slice then drops entries from the end). *)
Lemma search_recipes_not_as_stated :
  search_recipes (u " курица") false false false 10 = [r_001]
  /\ search_as_stated (u " курица") false false false 10 = []
  /\ search_recipes [] false false false (-1) = [r_001; r_002]
  /\ search_as_stated [] false false false (-1) = [].
Proof. repeat split; vm_compute; reflexivity. Qed.

Lemma search_recipes_stripped_witness :
  0 <= 10
  /\ search_recipes (u " курица") false false false 10
     = search_stripped (u " курица") false false false 10.
Proof.
  split; [lia|].
  exact (proj1 (search_recipes_stripped (u " курица") false false false 10
                  ltac:(lia))).
Defined.

(** ** Stable sort by a real key *)

Section SortByKey.
Context {A : Type} (key : A -> R).

Let le_key (a b : A) : Prop := (key a <= key b)%R.

Lemma insert_by_key_perm x l : Permutation (insert_by_key key x l) (x :: l).
Proof.
  induction l as [|y l IH]; simpl; [done|].
  destruct (Rle_dec (key x) (key y)); [done|].
  rewrite IH. apply perm_swap.
Qed.

Lemma sort_by_key_perm l : Permutation (sort_by_key key l) l.
Proof.
  induction l as [|x l IH]; simpl; [done|].
  rewrite insert_by_key_perm. by constructor.
Qed.

Lemma insert_by_key_sorted x l :
  StronglySorted le_key l -> StronglySorted le_key (insert_by_key key x l).
Proof.
  induction 1 as [|y l Hs IH Hall]; simpl.
  - repeat constructor.
  - destruct (Rle_dec (key x) (key y)) as [Hle|Hnle].
    + constructor; [by constructor|].
      constructor; [done|].
      eapply Forall_impl; [exact Hall|].
      intros z Hz. unfold le_key in *. lra.
    + constructor; [done|].
      rewrite insert_by_key_perm. constructor; [|done].
      unfold le_key. lra.
Qed.

Lemma sort_by_key_sorted l : StronglySorted le_key (sort_by_key key l).
Proof.
  induction l as [|x l IH]; simpl; [constructor|].
  by apply insert_by_key_sorted.
Qed.

(** Stability: the items whose key is [v] keep their original order. *)
Lemma insert_by_key_stable v x l :
  StronglySorted le_key l ->
  List.filter (has_key key v) (insert_by_key key x l)
  = List.filter (has_key key v) (x :: l).
Proof.
  induction 1 as [|y l Hs IH Hall]; [done|].
  cbn [insert_by_key]. destruct (Rle_dec (key x) (key y)) as [Hle|Hnle]; [done|].
  cbn [List.filter]. rewrite IH. cbn [List.filter].
  unfold has_key.
  destruct (Req_dec_T (key y) v), (Req_dec_T (key x) v); try done.
  lra.
Qed.

Lemma sort_by_key_stable v l :
  List.filter (has_key key v) (sort_by_key key l)
  = List.filter (has_key key v) l.
Proof.
  induction l as [|x l IH]; [done|].
  cbn [sort_by_key]. rewrite insert_by_key_stable by apply sort_by_key_sorted.
  cbn [List.filter]. by rewrite IH.
Qed.

End SortByKey.

(** ** Rounding without representation error *)

Lemma round_half_even_near (x : R) (n : Z) :
  (IZR n - 1 / 2 < x < IZR n + 1 / 2)%R -> round_half_even x = n.
Proof.
  intros [Hlo Hhi]. unfold round_half_even.
  pose proof (base_Int_part x) as [Hi1 Hi2].
  assert (Hfrac : frac_part x = (x - IZR (Int_part x))%R) by reflexivity.
  assert (Hcases : Int_part x = n \/ Int_part x = n - 1).
  { assert (n - 2 < Int_part x < n + 1) as [H1 H2]; [|lia].
    split.
    - apply lt_IZR. rewrite minus_IZR. lra.
    - apply lt_IZR. rewrite plus_IZR. lra. }
  destruct Hcases as [Hf | Hf]; rewrite Hf in *.
  - destruct (Rlt_dec (frac_part x) (1 / 2)) as [|Hn]; [done|].
    exfalso. apply Hn. rewrite Hfrac. lra.
  - rewrite minus_IZR in *.
    destruct (Rlt_dec (frac_part x) (1 / 2)) as [Hlt|Hn].
    { exfalso. rewrite Hfrac in Hlt. lra. }
    destruct (Rlt_dec (1 / 2) (frac_part x)) as [|Hn2]; [lia|].
    exfalso. apply Hn2. rewrite Hfrac. lra.
Qed.

Lemma round_half_even_error (x : R) :
  (- (1 / 2) <= IZR (round_half_even x) - x <= 1 / 2)%R.
Proof.
  unfold round_half_even.
  pose proof (base_fp x) as [Hf0 Hf1].
  assert (Hx : x = (IZR (Int_part x) + frac_part x)%R).
  { unfold frac_part. lra. }
  repeat match goal with
  | |- context [Rlt_dec ?a ?b] => destruct (Rlt_dec a b)
  | |- context [Z.even ?a] => destruct (Z.even a)
  end; rewrite ?plus_IZR; lra.
Qed.

(** The reported value is a whole number of hundredths, at most half a
    hundredth away from the exact one. *)
Lemma py_round_2_error (x : R) :
  (Rabs (py_round x 2 - x) <= 1 / 200)%R
  /\ (py_round x 2 * 100 = IZR (round_half_even (x * 100)))%R.
Proof.
  unfold py_round.
  replace (10 ^ 2)%R with 100%R by (simpl; lra).
  split; [|field].
  pose proof (round_half_even_error (x * 100)) as H.
  apply Rabs_le. lra.
Qed.

(** ** Shop locator

    What follows holds for every float arithmetic. *)

Section LocatorProps.
Context {F : Float64}.

Lemma calculate_distance_planar lat lon shop :
  _calculate_distance lat lon
    (float_literal (s_latitude shop)) (float_literal (s_longitude shop))
  = planar_distance lat lon shop.
Proof. reflexivity. Qed.

Lemma in_radius_true lat lon r shop :
  in_radius lat lon r shop = true <-> (planar_distance lat lon shop <= r)%R.
Proof. unfold in_radius. destruct (Rle_dec _ _); intuition congruence. Qed.

Lemma fold_nearby_step lat lon r shops acc :
  fold_left (nearby_step lat lon r) shops acc
  = acc ++ map (with_distance lat lon) (List.filter (in_radius lat lon r) shops).
Proof.
  revert acc. induction shops as [|shop shops IH]; intros acc; simpl.
  - by rewrite app_nil_r.
  - rewrite IH. unfold nearby_step, in_radius. cbv zeta.
    rewrite calculate_distance_planar.
    destruct (Rle_dec (planar_distance lat lon shop) r); simpl; [|done].
    by rewrite <- app_assoc.
Qed.

Lemma find_nearby_shops_unfold lat lon r limit :
  find_nearby_shops lat lon r limit
  = py_slice_to (in_radius_sorted lat lon r) limit.
Proof. unfold find_nearby_shops. cbv zeta. by rewrite fold_nearby_step. Qed.

Lemma in_radius_sorted_In lat lon r sd :
  In sd (in_radius_sorted lat lon r) <->
  exists shop, In shop MOCK_SHOPS
    /\ (planar_distance lat lon shop <= r)%R
    /\ sd = with_distance lat lon shop.
Proof.
  unfold in_radius_sorted.
  set (l := map _ _).
  assert (In sd (sort_by_key distance_km l) <-> In sd l) as ->.
  { split; apply Permutation_in;
      [apply sort_by_key_perm | symmetry; apply sort_by_key_perm]. }
  subst l. rewrite in_map_iff. split.
  - intros (shop & <- & Hin). apply filter_In in Hin as [Hin Hr].
    exists shop. by rewrite <- in_radius_true.
  - intros (shop & Hin & Hr & ->). exists shop. split; [done|].
    apply filter_In. by rewrite in_radius_true.
Qed.

(** The records of one reported distance are those of the catalogue
    shops within the radius, in catalogue order. *)
Lemma in_radius_sorted_stable lat lon r v :
  List.filter (has_key distance_km v) (in_radius_sorted lat lon r)
  = List.filter (has_key distance_km v)
      (map (with_distance lat lon)
         (List.filter (in_radius lat lon r) MOCK_SHOPS)).
Proof. unfold in_radius_sorted. apply sort_by_key_stable. Qed.

Lemma with_distance_shops lat lon shops :
  map sd_shop (map (with_distance lat lon) shops) = shops.
Proof. rewrite map_map. apply map_id. Qed.

Lemma filter_take_sublist {A} (p : A -> bool) n (l : list A) :
  List.filter p (take n l) `sublist_of` List.filter p l.
Proof.
  rewrite <- (take_drop n l) at 2. rewrite List.filter_app.
  apply sublist_inserts_r. reflexivity.
Qed.

(** C3 (amended). For every position and radius and every non-negative
    limit, the distance of a shop being the planar formula
    sqrt(((lat2-lat1)*111)^2 + ((lon2-lon1)*111)^2) evaluated in float
    arithmetic: each returned record is a catalogue shop whose distance
    is at most the radius (boundary included) and carries that distance
    rounded to two decimals; the records are in ascending order of the
    reported distance; the shops of the records reporting one and the
    same distance are a sub-list of the catalogue, so they stay in
    catalogue order; there are at most [limit] records; and a catalogue
    shop within the radius is missing from the result only when the
    result is full and none of its records reports a larger distance. *)
Theorem find_nearby_shops_spec lat lon r limit :
  0 <= limit ->
  let result := find_nearby_shops lat lon r limit in
  Forall
    (fun sd =>
       In (sd_shop sd) MOCK_SHOPS
       /\ (planar_distance lat lon (sd_shop sd) <= r)%R
       /\ distance_km sd
          = float_round (planar_distance lat lon (sd_shop sd)) 2)
    result
  /\ StronglySorted by_distance result
  /\ (forall v,
        map sd_shop (List.filter (has_key distance_km v) result)
        `sublist_of` MOCK_SHOPS)
  /\ Z.of_nat (length result) <= limit
  /\ (forall shop,
        In shop MOCK_SHOPS ->
        (planar_distance lat lon shop <= r)%R ->
        In (with_distance lat lon shop) result
        \/ (Z.of_nat (length result) = limit
            /\ Forall (fun sd => by_distance sd (with_distance lat lon shop))
                 result)).
Proof.
  intros Hl result. subst result.
  rewrite find_nearby_shops_unfold, py_slice_to_nonneg by done.
  set (n := Z.to_nat limit). set (l := in_radius_sorted lat lon r).
  assert (Hsorted : StronglySorted by_distance (take n l ++ drop n l)).
  { rewrite take_drop. apply sort_by_key_sorted. }
  split; [|split; [|split; [|split]]].
  - apply List.Forall_forall. intros sd Hin.
    assert (Hin' : In sd l).
    { rewrite <- (take_drop n l). apply in_or_app. by left. }
    apply in_radius_sorted_In in Hin' as (shop & Hm & Hr & ->). by simpl.
  - by eapply StronglySorted_app_1_l.
  - intros v.
    transitivity (map sd_shop (List.filter (has_key distance_km v) l)).
    { apply sublist_map, filter_take_sublist. }
    subst l. rewrite in_radius_sorted_stable.
    transitivity
      (map sd_shop
         (map (with_distance lat lon)
            (List.filter (in_radius lat lon r) MOCK_SHOPS))).
    { apply sublist_map, list_filter_sublist. }
    rewrite with_distance_shops. apply list_filter_sublist.
  - rewrite length_take. lia.
  - intros shop Hm Hr.
    assert (Hin : In (with_distance lat lon shop) (take n l ++ drop n l)).
    { rewrite take_drop. apply in_radius_sorted_In. by exists shop. }
    apply in_app_or in Hin as [Hin|Hin]; [by left|right]. split.
    + rewrite length_take.
      assert (n < length l)%nat; [|lia].
      destruct (decide (n < length l)%nat) as [|Hge]; [done|].
      rewrite drop_ge in Hin by lia. destruct Hin.
    + apply List.Forall_forall. intros sd Hsd.
      eapply StronglySorted_app_1_elem_of; [exact Hsorted| |];
        by apply list_elem_of_In.
Qed.

Lemma in_radius_sorted_length lat lon r :
  length (in_radius_sorted lat lon r)
  = length (List.filter (in_radius lat lon r) MOCK_SHOPS).
Proof.
  unfold in_radius_sorted.
  rewrite (Permutation_length (sort_by_key_perm distance_km _)).
  apply length_map.
Qed.

End LocatorProps.

Lemma find_nearby_shops_spec_witness :
  0 <= 5
  /\ StronglySorted by_distance
       (find_nearby_shops 55.7558%R 37.6173%R 1%R 5).
Proof.
  split; [lia|].
  exact (proj1 (proj2 (find_nearby_shops_spec 55.7558%R 37.6173%R 1%R 5
                         ltac:(lia)))).
Defined.

(** *** Concrete positions

    The examples are evaluated with [exact_arith]. *)

Lemma exact_pow_two x : exact_pow x 2 = (x ^ 2)%R.
Proof. unfold exact_pow. by destruct (Req_dec_T 2 2). Qed.

Lemma exact_pow_half x : exact_pow x 0.5 = sqrt x.
Proof.
  unfold exact_pow.
  destruct (Req_dec_T 0.5 2) as [H|_]; [exfalso; lra|].
  by destruct (Req_dec_T 0.5 0.5).
Qed.

Lemma planar_distance_exact lat lon shop :
  planar_distance lat lon shop
  = sqrt (((Q2R (s_latitude shop) - lat) * 111) ^ 2
          + ((Q2R (s_longitude shop) - lon) * 111) ^ 2).
Proof.
  unfold planar_distance.
  cbn [float_pow float_add float_mul float_sub float_literal exact_arith].
  by rewrite exact_pow_half, !exact_pow_two.
Qed.

(** With exact operations the distance of a point to itself is zero. *)
Lemma calculate_distance_self lat lon : _calculate_distance lat lon lat lon = 0%R.
Proof.
  unfold _calculate_distance. cbv zeta.
  cbn [float_pow float_add float_mul float_sub exact_arith].
  rewrite exact_pow_half, !exact_pow_two.
  replace (((lat - lat) * 111) ^ 2 + ((lon - lon) * 111) ^ 2)%R with 0%R by ring.
  apply sqrt_0.
Qed.

Lemma sqrt_le_bound (x b : R) : (0 <= b)%R -> (x <= b ^ 2)%R -> (sqrt x <= b)%R.
Proof.
  intros Hb Hx. rewrite <- (sqrt_pow2 b Hb). by apply sqrt_le_1_alt.
Qed.

Lemma sqrt_between (a b x : R) :
  (0 <= a)%R -> (0 <= b)%R -> (a ^ 2 < x < b ^ 2)%R -> (a < sqrt x < b)%R.
Proof.
  intros Ha Hb [H1 H2]. split.
  - rewrite <- (sqrt_pow2 a Ha). apply sqrt_lt_1_alt. split; [apply pow2_ge_0|done].
  - rewrite <- (sqrt_pow2 b Hb). apply sqrt_lt_1_alt. split; [|done].
    pose proof (pow2_ge_0 a). lra.
Qed.

(** Unfolds the distance of a fixture shop down to real constants. *)
Ltac planar :=
  rewrite ?planar_distance_exact; unfold Q2R;
  cbn [s_latitude s_longitude shop_001 shop_002 shop_003 Qnum Qden]; simpl.

Lemma near_red_square_all :
  List.filter (in_radius 55.7558 37.6173 1) MOCK_SHOPS = MOCK_SHOPS.
Proof.
  unfold MOCK_SHOPS. cbn [List.filter].
  assert (H1 : in_radius 55.7558 37.6173 1 shop_001 = true).
  { apply in_radius_true. planar. apply sqrt_le_bound; lra. }
  assert (H2 : in_radius 55.7558 37.6173 1 shop_002 = true).
  { apply in_radius_true. planar. apply sqrt_le_bound; lra. }
  assert (H3 : in_radius 55.7558 37.6173 1 shop_003 = true).
  { apply in_radius_true. planar. apply sqrt_le_bound; lra. }
  by rewrite H1, H2, H3.
Qed.

Lemma find_nearby_negative_limit :
  length (find_nearby_shops 55.7558 37.6173 1 (-1)) = 2%nat
  /\ ~ (Z.of_nat (length (find_nearby_shops 55.7558 37.6173 1 (-1))) <= -1).
Proof.
  assert (H : length (find_nearby_shops 55.7558 37.6173 1 (-1)) = 2%nat).
  { apply Nat2Z.inj. rewrite find_nearby_shops_unfold, py_slice_to_length.
    rewrite in_radius_sorted_length, near_red_square_all. reflexivity. }
  split; [done|]. rewrite H. lia.
Qed.

Lemma py_round_2_near (x : R) (n : Z) :
  (IZR n - 1 / 2 < x * 100 < IZR n + 1 / 2)%R ->
  py_round x 2 = (IZR n / 100)%R.
Proof.
  intros H. unfold py_round.
  replace (10 ^ 2)%R with 100%R by (simpl; lra).
  by rewrite (round_half_even_near _ n).
Qed.

Lemma tie_distances :
  (1.905 < planar_distance 55.76 37.634 shop_002)%R
  /\ (planar_distance 55.76 37.634 shop_002
      < planar_distance 55.76 37.634 shop_001)%R
  /\ (planar_distance 55.76 37.634 shop_001 < 1.915)%R
  /\ (2 < planar_distance 55.76 37.634 shop_003)%R.
Proof.
  repeat split.
  - planar. apply sqrt_between with (b := 2%R); lra.
  - planar. apply sqrt_lt_1_alt. lra.
  - planar. apply sqrt_between with (a := 0%R); lra.
  - planar. apply sqrt_between with (b := 3%R); lra.
Qed.

Lemma find_nearby_shops_rounding_tie :
  find_nearby_shops 55.76 37.634 2 5
  = [with_distance 55.76 37.634 shop_001; with_distance 55.76 37.634 shop_002]
  /\ distance_km (with_distance 55.76 37.634 shop_001) = 1.91%R
  /\ distance_km (with_distance 55.76 37.634 shop_002) = 1.91%R
  /\ (planar_distance 55.76 37.634 shop_002
      < planar_distance 55.76 37.634 shop_001)%R.
Proof.
  destruct tie_distances as (H2 & H12 & H1 & H3).
  assert (K1 : distance_km (with_distance 55.76 37.634 shop_001) = 1.91%R).
  { cbn [distance_km with_distance float_round exact_arith].
    rewrite (py_round_2_near _ 191); lra. }
  assert (K2 : distance_km (with_distance 55.76 37.634 shop_002) = 1.91%R).
  { cbn [distance_km with_distance float_round exact_arith].
    rewrite (py_round_2_near _ 191); lra. }
  split; [|done].
  rewrite find_nearby_shops_unfold, py_slice_to_nonneg by lia.
  unfold in_radius_sorted, MOCK_SHOPS. cbn [List.filter].
  assert (E1 : in_radius 55.76 37.634 2 shop_001 = true)
    by (apply in_radius_true; lra).
  assert (E2 : in_radius 55.76 37.634 2 shop_002 = true)
    by (apply in_radius_true; lra).
  assert (E3 : in_radius 55.76 37.634 2 shop_003 = false).
  { apply not_true_is_false. rewrite in_radius_true. lra. }
  rewrite E1, E2, E3. cbn [map sort_by_key insert_by_key].
  destruct (Rle_dec _ _) as [|Hn]; [reflexivity|].
  exfalso. apply Hn. rewrite K1, K2. lra.
Qed.

(** C3 as worded fails: a negative limit returns more than [limit]
    records, and two shops whose distances round to the same value stay in
    catalogue order even when the second is strictly nearer.  At these
    positions the distances are far from the radius and from a rounding
    boundary, so the exact operations decide as the float ones do. *)
Lemma find_nearby_shops_not_as_stated :
  ~ (Z.of_nat (length (find_nearby_shops 55.7558 37.6173 1 (-1))) <= -1)
  /\ (exists a b,
        find_nearby_shops 55.76 37.634 2 5 = [a; b]
        /\ (planar_distance 55.76 37.634 (sd_shop b)
            < planar_distance 55.76 37.634 (sd_shop a))%R).
Proof.
  split; [apply find_nearby_negative_limit|].
  destruct find_nearby_shops_rounding_tie as (Heq & _ & _ & Hlt).
  eexists _, _. split; [exact Heq|exact Hlt].
Qed.

(** ** Pricing *)

Lemma shop_ids_distinct :
  s_id shop_001 <> s_id shop_002 /\ s_id shop_001 <> s_id shop_003
  /\ s_id shop_002 <> s_id shop_003.
Proof. repeat split; vm_compute; discriminate. Qed.

Lemma price_step_effect table t f i :
  ((price_step table (t, f) i).1
   == t + default 0 (dict_get (ing_name i) table))%Q
  /\ f <= (price_step table (t, f) i).2 <= f + 1.
Proof.
  unfold price_step. cbv zeta.
  destruct (dict_get (ing_name i) table) as [p|]; simpl.
  - destruct (Qeq_bool p 0) eqn:Hz; simpl.
    + apply Qeq_bool_iff in Hz. split; [lra | lia].
    + split; [reflexivity | lia].
  - split; [lra | lia].
Qed.

Lemma price_fold table ings t f :
  ((fold_left (price_step table) ings (t, f)).1
   == t + matched_total table ings)%Q
  /\ f <= (fold_left (price_step table) ings (t, f)).2
     <= f + Z.of_nat (length ings).
Proof.
  revert t f. induction ings as [|i ings IH]; intros t f;
    cbn [fold_left matched_total fold_right length].
  - cbn [fst snd]. split; [lra | lia].
  - pose proof (price_step_effect table t f i) as [S1 S2].
    destruct (price_step table (t, f) i) as [t' f']. cbn [fst snd] in S1, S2.
    destruct (IH t' f') as [IH1 IH2]. split; [|lia].
    rewrite IH1, S1. symmetry. apply Qplus_assoc.
Qed.

Lemma round_half_even_Q_error (y : Q) :
  (- (1 # 2) <= inject_Z (round_half_even_Q y) - y <= 1 # 2)%Q.
Proof.
  unfold round_half_even_Q. cbv zeta.
  pose proof (Qfloor_le y) as H1. pose proof (Qlt_floor y) as H2.
  rewrite inject_Z_plus in H2. change (inject_Z 1) with 1%Q in H2.
  destruct (Qcompare_spec (y - inject_Z (Qfloor y)) (1 # 2)) as [He|Hl|Hg];
    [destruct (Z.even (Qfloor y))| |];
    rewrite ?inject_Z_plus; change (inject_Z 1) with 1%Q; lra.
Qed.

Lemma py_round_Q_2_error (x : Q) : (Qabs (py_round_Q x 2 - x) <= 1 # 200)%Q.
Proof.
  unfold py_round_Q. change (10 ^ Z.of_nat 2) with 100.
  pose proof (round_half_even_Q_error (x * inject_Z 100)) as [H1 H2].
  set (n := inject_Z (round_half_even_Q (x * inject_Z 100))) in *.
  apply Qabs_Qle_condition. change (inject_Z 100) with (100 # 1)%Q in *.
  assert (E : (n / (100 # 1) == n * (1 # 100))%Q) by (field).
  rewrite E. split; lra.
Qed.

Section PricingProps.
Context {F : Float64}.

Lemma get_prices_for_recipe_unfold recipe_id ingredients :
  get_prices_for_recipe recipe_id ingredients
  = map (fun shop => (s_id shop, shop_quote ingredients shop)) MOCK_SHOPS.
Proof.
  destruct shop_ids_distinct as (H12 & H13 & H23).
  unfold get_prices_for_recipe, MOCK_SHOPS. cbn [fold_left map dict_set].
  repeat (case_decide; [congruence|]; cbn [dict_set]).
  reflexivity.
Qed.

Lemma get_prices_for_recipe_lookup recipe_id ingredients shop :
  In shop MOCK_SHOPS ->
  dict_get (s_id shop) (get_prices_for_recipe recipe_id ingredients)
  = Some (shop_quote ingredients shop).
Proof.
  destruct shop_ids_distinct as (H12 & H13 & H23).
  rewrite get_prices_for_recipe_unfold. unfold MOCK_SHOPS. cbn [map dict_get In].
  intros [<-|[<-|[<-|[]]]];
    repeat case_decide; congruence.
Qed.

Lemma shop_quote_fields ingredients shop :
  let e := shop_quote ingredients shop in
  (total_price e == matched_total (shop_price_table shop) ingredients)%Q
  /\ 0 <= found_ingredients e <= Z.of_nat (length ingredients)
  /\ total_ingredients e = Z.of_nat (length ingredients)
  /\ price_per_serving e
     = match ingredients with
       | [] => 0%Q
       | _ :: _ =>
           price_round
             (price_div (total_price e)
                (inject_Z (Z.of_nat (length ingredients)))) 2
       end.
Proof.
  unfold shop_quote. fold (shop_price_table shop).
  pose proof (price_fold (shop_price_table shop) ingredients 0%Q 0) as [H1 H2].
  destruct (fold_left _ _ _) as [t f]. cbn [fst snd] in *.
  cbn [total_price found_ingredients total_ingredients price_per_serving].
  repeat split; try lia; try done. rewrite H1. apply Qplus_0_l.
Qed.

(** C6 (amended). For every ingredient list and every catalogue shop,
    [get_prices_for_recipe] holds a record for the shop in which the
    total price is the sum of the table prices of the ingredients whose
    name is a key of the shop's table; the price per serving is the
    float quotient of that total by the number of ingredients, rounded
    to two decimals by [round], and 0 for the empty list; and the number
    of found ingredients is between 0 and the number of ingredients. *)
Theorem get_prices_for_recipe_record recipe_id ingredients shop :
  In shop MOCK_SHOPS ->
  exists e,
    dict_get (s_id shop) (get_prices_for_recipe recipe_id ingredients) = Some e
    /\ (total_price e == matched_total (shop_price_table shop) ingredients)%Q
    /\ price_per_serving e
       = match ingredients with
         | [] => 0%Q
         | _ :: _ =>
             price_round
               (price_div (total_price e)
                  (inject_Z (Z.of_nat (length ingredients)))) 2
         end
    /\ 0 <= found_ingredients e <= Z.of_nat (length ingredients)
    /\ total_ingredients e = Z.of_nat (length ingredients).
Proof.
  intros Hshop. exists (shop_quote ingredients shop).
  destruct (shop_quote_fields ingredients shop) as (Ht & Hf & Hn & Hp).
  split; [by apply get_prices_for_recipe_lookup|].
  repeat split; try done; try lia.
Qed.

End PricingProps.

Lemma get_prices_for_recipe_record_witness :
  In shop_002 MOCK_SHOPS
  /\ exists e,
       dict_get (s_id shop_002)
         (get_prices_for_recipe (r_id r_001) (r_ingredients r_001)) = Some e
       /\ (total_price e
           == matched_total (shop_price_table shop_002) (r_ingredients r_001))%Q.
Proof.
  assert (H : In shop_002 MOCK_SHOPS) by (right; left; reflexivity).
  split; [exact H|].
  destruct (get_prices_for_recipe_record (r_id r_001) (r_ingredients r_001)
              shop_002 H) as (e & H1 & H2 & _).
  exists e. split; [exact H1 | exact H2].
Defined.

(** C6 as worded fails: for chicken, broccoli and cucumber the first
    shop totals 353, and the price per serving is 117.67, not 353/3.
    Evaluated with [exact_arith]; the float operations give the same two
    decimals. *)
Lemma price_per_serving_not_exact :
  exists e,
    dict_get (s_id shop_001) (get_prices_for_recipe (u "r_new") three_items)
    = Some e
    /\ (total_price e == 353)%Q
    /\ (price_per_serving e == 117.67)%Q
    /\ ~ (price_per_serving e
          == total_price e / inject_Z (Z.of_nat (length three_items)))%Q.
Proof.
  eexists. split; [vm_compute; reflexivity|].
  repeat split; vm_compute; congruence.
Qed.

(** ** Cheapest shop *)

Lemma min_from_split (h : store) pre best bk mid rest :
  item_price h best = Some bk ->
  Forall (price_gt h bk) pre ->
  Forall (price_ge h bk) mid ->
  refs_valid h rest ->
  exists pre' x post' e,
    pre ++ best :: mid ++ rest = pre' ++ x :: post'
    /\ min_from (item_price h) best bk rest = Some x
    /\ h !! x.2 = Some e
    /\ Forall (price_gt h (total_price e)) pre'
    /\ Forall (price_ge h (total_price e)) post'.
Proof.
  intros Hb Hpre Hmid Hrest. revert pre best bk mid Hb Hpre Hmid.
  induction Hrest as [|item rest [e He] Hrest IH];
    intros pre best bk mid Hb Hpre Hmid.
  - unfold item_price in Hb.
    destruct (h !! best.2) as [eb|] eqn:Heb; [|done].
    injection Hb as <-.
    exists pre, best, mid, eb. rewrite app_nil_r. by cbn.
  - assert (Hi : item_price h item = Some (total_price e))
      by (unfold item_price; by rewrite He).
    cbn [min_from]. rewrite Hi. cbn [mbind option_bind].
    destruct (Qlt_le_dec (total_price e) bk) as [Hlt|Hle].
    + destruct (IH (pre ++ best :: mid) item (total_price e) [])
        as (pre' & x & post' & ex & Heq & Hmin & Hx & H1 & H2).
      * exact Hi.
      * apply Forall_app. split.
        -- eapply Forall_impl; [exact Hpre|].
           intros y (ey & Hy & Hlt'). exists ey. split; [done|]. lra.
        -- constructor.
           ++ unfold item_price in Hb.
              destruct (h !! best.2) as [eb|] eqn:Heb; [|done].
              injection Hb as <-. exists eb. by split.
           ++ eapply Forall_impl; [exact Hmid|].
              intros y (ey & Hy & Hle'). exists ey. split; [done|]. lra.
      * constructor.
      * exists pre', x, post', ex. split; [|done].
        rewrite <- Heq. by rewrite <- !app_assoc.
    + destruct (IH pre best bk (mid ++ [item]))
        as (pre' & x & post' & ex & Heq & Hmin & Hx & H1 & H2); try done.
      * apply Forall_app. split; [done|]. constructor; [|constructor].
        exists e. by split.
      * exists pre', x, post', ex. split; [|done].
        rewrite <- Heq. by rewrite <- !app_assoc.
Qed.

(** What [find_cheapest_shop] does on a non-empty map, in full. *)
Lemma find_cheapest_shop_split (m : price_map) (h : store) :
  m <> [] -> refs_valid h m ->
  exists pre k l post e,
    m = pre ++ (k, l) :: post
    /\ h !! l = Some e
    /\ Forall (price_gt h (total_price e)) pre
    /\ Forall (price_ge h (total_price e)) post
    /\ find_cheapest_shop m h = Some (Some l, <[l := set_shop_id k e]> h).
Proof.
  intros Hne Hv. destruct m as [|first rest]; [done|].
  apply Forall_cons in Hv as [[e0 He0] Hrest].
  assert (Hk : item_price h first = Some (total_price e0))
    by (unfold item_price; by rewrite He0).
  destruct (min_from_split h [] first (total_price e0) [] rest)
    as (pre & [k l] & post & e & Heq & Hmin & Hx & H1 & H2);
    [done | constructor | constructor | done |].
  exists pre, k, l, post, e. cbn [app] in Heq. cbn [snd] in Hx.
  repeat split; try done.
  unfold find_cheapest_shop, py_min. rewrite Hk. cbn [mbind option_bind].
  rewrite Hmin. cbn [mbind option_bind]. rewrite Hx. by cbn.
Qed.

(** C7. On a price map whose references are valid, [find_cheapest_shop]
    returns nothing for the empty map and leaves the store as it is; for
    a non-empty map it returns the dictionary of an entry of the map
    whose total price is strictly below that of every earlier entry and
    at most that of every later entry, i.e. the first entry in insertion
    order among those of minimum total price. *)
Theorem find_cheapest_shop_first_min (m : price_map) (h : store) :
  refs_valid h m ->
  (m = [] -> find_cheapest_shop m h = Some (None, h))
  /\ (m <> [] ->
      exists pre k l post e h',
        m = pre ++ (k, l) :: post
        /\ h !! l = Some e
        /\ find_cheapest_shop m h = Some (Some l, h')
        /\ Forall (price_gt h (total_price e)) pre
        /\ Forall (price_ge h (total_price e)) post
        /\ total_price <$> h' !! l = Some (total_price e)).
Proof.
  intros Hv. split; [by intros ->|].
  intros Hne.
  destruct (find_cheapest_shop_split m h Hne Hv)
    as (pre & k & l & post & e & Heq & He & H1 & H2 & Hrun).
  exists pre, k, l, post, e, (<[l := set_shop_id k e]> h).
  repeat split; try done. by rewrite lookup_insert_eq.
Qed.

(** C10. On a non-empty price map whose references are valid,
    [find_cheapest_shop] writes the key [shop_id] into the dictionary of
    the minimum-price entry, in the store, and returns the reference to
    that same dictionary; the other fields of that dictionary and every
    other dictionary of the store are unchanged. *)
Theorem find_cheapest_shop_mutates (m : price_map) (h : store) :
  m <> [] -> refs_valid h m ->
  exists k l e h',
    In (k, l) m
    /\ h !! l = Some e
    /\ Forall (price_ge h (total_price e)) m
    /\ find_cheapest_shop m h = Some (Some l, h')
    /\ h' !! l = Some (set_shop_id k e)
    /\ shop_id (set_shop_id k e) = Some k
    /\ (shop_name (set_shop_id k e), total_price (set_shop_id k e),
        found_ingredients (set_shop_id k e), total_ingredients (set_shop_id k e),
        price_per_serving (set_shop_id k e), address (set_shop_id k e),
        rating (set_shop_id k e))
       = (shop_name e, total_price e, found_ingredients e, total_ingredients e,
          price_per_serving e, address e, rating e)
    /\ (forall l', l' <> l -> h' !! l' = h !! l').
Proof.
  intros Hne Hv.
  destruct (find_cheapest_shop_split m h Hne Hv)
    as (pre & k & l & post & e & Heq & He & H1 & H2 & Hrun).
  exists k, l, e, (<[l := set_shop_id k e]> h).
  split; [rewrite Heq; apply in_or_app; right; by left|].
  split; [done|]. split.
  { rewrite Heq. apply Forall_app. split.
    - eapply Forall_impl; [exact H1|].
      intros y (ey & Hy & Hlt). exists ey. split; [done|]. lra.
    - constructor; [|done]. exists e. split; [done|]. lra. }
  split; [done|]. split; [by rewrite lookup_insert_eq|].
  split; [done|]. split; [done|].
  intros l' Hl'. by rewrite lookup_insert_ne.
Qed.

Lemma quotes_refs_valid : refs_valid quotes_store quotes_map.
Proof. repeat constructor; eexists; reflexivity. Qed.

Lemma find_cheapest_shop_first_min_witness :
  refs_valid quotes_store quotes_map
  /\ exists pre k l post e,
       quotes_map = pre ++ (k, l) :: post
       /\ quotes_store !! l = Some e
       /\ Forall (price_gt quotes_store (total_price e)) pre
       /\ Forall (price_ge quotes_store (total_price e)) post.
Proof.
  split; [exact quotes_refs_valid|].
  destruct (proj2 (find_cheapest_shop_first_min quotes_map quotes_store
                     quotes_refs_valid) ltac:(discriminate))
    as (pre & k & l & post & e & h' & H1 & H2 & _ & H3 & H4 & _).
  exists pre, k, l, post, e. repeat split; assumption.
Defined.

Lemma find_cheapest_shop_mutates_witness :
  quotes_map <> [] /\ refs_valid quotes_store quotes_map
  /\ exists k l e h',
       find_cheapest_shop quotes_map quotes_store = Some (Some l, h')
       /\ h' !! l = Some (set_shop_id k e)
       /\ (forall l', l' <> l -> h' !! l' = quotes_store !! l').
Proof.
  split; [discriminate|]. split; [exact quotes_refs_valid|].
  destruct (find_cheapest_shop_mutates quotes_map quotes_store
              ltac:(discriminate) quotes_refs_valid)
    as (k & l & e & h' & _ & _ & _ & H1 & H2 & _ & _ & H3).
  exists k, l, e, h'. repeat split; assumption.
Defined.

Example cheapest_of_quotes :
  fst <$> find_cheapest_shop quotes_map quotes_store = Some (Some 2%positive).
Proof. vm_compute. reflexivity. Qed.

(** ** Advice client *)

Section GptProps.
Variable server : Gpt.upstream.
Variable connection_is_api_error : bool.

Lemma ask_dietician_body_returns q d g c st :
  exists s,
    Gpt.ask_dietician_body server connection_is_api_error q d g c st
    = (Gpt.Returned s,
       {| Gpt.requests := S (Gpt.requests st); Gpt.sleeps := Gpt.sleeps st |})
    /\ match server (Gpt.requests st) (Gpt.full_prompt q d g c) with
       | Gpt.Answer content => s = strip content
       | Gpt.Raise e => s = Gpt.apology_api \/ s = Gpt.apology_other
       end.
Proof.
  unfold Gpt.ask_dietician_body. cbv zeta.
  destruct (server _ _) as [content|e].
  - exists (strip content). by split.
  - destruct (Gpt.isinstance_APIError _ e).
    + exists Gpt.apology_api. split; [reflexivity | by left].
    + exists Gpt.apology_other. split; [reflexivity | by right].
Qed.

(** What the retry wrapper does around a function that raises a
    retryable error on every call: three calls, waits of 2 and 2, then
    [RetryError]. *)
Lemma retrying_exhausts (st : Gpt.state) :
  Gpt.retrying (A := pystr)
    (fun s => (Gpt.Raised Gpt.APIError,
               {| Gpt.requests := S (Gpt.requests s);
                  Gpt.sleeps := Gpt.sleeps s |}))
    1 2 st
  = (Gpt.RetryError,
     {| Gpt.requests := 3 + Gpt.requests st;
        Gpt.sleeps := Gpt.sleeps st ++ [2; 2] |}).
Proof. cbn. by rewrite <- app_assoc. Qed.

(** C4 (the code at the failing input and in general). Whatever the
    upstream service does, [ask_dietician] returns a string after
    exactly one request and without waiting: the answer, or one of the
    two apologies when the request raised.  The retry wrapper never
    sees an exception, so a transient error is not retried. *)
Theorem ask_dietician_single_attempt q d g c st :
  exists s,
    Gpt.ask_dietician server connection_is_api_error q d g c st
    = (Gpt.Returned s,
       {| Gpt.requests := S (Gpt.requests st); Gpt.sleeps := Gpt.sleeps st |})
    /\ match server (Gpt.requests st) (Gpt.full_prompt q d g c) with
       | Gpt.Answer content => s = strip content
       | Gpt.Raise e => s = Gpt.apology_api \/ s = Gpt.apology_other
       end.
Proof.
  destruct (ask_dietician_body_returns q d g c st) as (s & Hs & Hm).
  exists s. split; [|done].
  unfold Gpt.ask_dietician. cbn [Gpt.retrying]. by rewrite Hs.
Qed.

End GptProps.

Example flaky_no_retry :
  Gpt.ask_dietician Gpt.flaky_server false (u "Что есть на ужин?") true false false
    {| Gpt.requests := 0; Gpt.sleeps := [] |}
  = (Gpt.Returned Gpt.apology_other, {| Gpt.requests := 1; Gpt.sleeps := [] |}).
Proof. vm_compute. reflexivity. Qed.

(** ** Conversation state machine *)

Section HandlerProps.
Context {L : Lowercase}.
Variable transport_ok : nat -> bool.
Variable get_or_create_user : Handlers.Message -> option Handlers.User.
Variable diary_query : Z -> option (list Handlers.DiaryEntry).
Variable server : Gpt.upstream.
Variable connection_is_api_error : bool.
Variable max_recipe_results : Z.

Let handle_text :=
  Handlers.handle_text transport_ok get_or_create_user server
    connection_is_api_error max_recipe_results.

Lemma transport_user_state s w :
  Handlers.user_state (Handlers.transport transport_ok s w).2
  = Handlers.user_state w.
Proof. unfold Handlers.transport. by destruct (transport_ok _). Qed.

Lemma transport_accepts s w :
  transport_ok (Handlers.transport_calls w) = true ->
  Handlers.transport transport_ok s w
  = (Some tt,
     {| Handlers.user_state := Handlers.user_state w;
        Handlers.sent := Handlers.sent w ++ [s];
        Handlers.transport_calls := S (Handlers.transport_calls w);
        Handlers.gpt := Handlers.gpt w |}).
Proof. intros H. unfold Handlers.transport. by rewrite H. Qed.

(** C9 (amended). When the pending action of the sender is
    [search_recipe], the
    profile lookup succeeds and the transport accepts the two messages,
    [handle_text] announces the search, runs [search_recipes] on the
    message text with the profile's three flags and the configured
    limit, reports the recipes found (or that none was found), and
    deletes the sender's state entry in both cases. *)
Theorem handle_text_search_recipe message w user entry :
  get_or_create_user message = Some user ->
  Handlers.user_state w !! Handlers.from_user_id message = Some entry ->
  entry !! "action" = Some "search_recipe" ->
  transport_ok (Handlers.transport_calls w) = true ->
  transport_ok (S (Handlers.transport_calls w)) = true ->
  let recipes :=
    search_recipes (Handlers.text message) (Handlers.has_diabetes user)
      (Handlers.has_gout user) (Handlers.has_celiac user)
      max_recipe_results in
  handle_text message w
  = (Some tt,
     {| Handlers.user_state :=
          delete (Handlers.from_user_id message) (Handlers.user_state w);
        Handlers.sent :=
          Handlers.sent w
          ++ [Handlers.SendMessage (Handlers.chat_id message)
                (Handlers.Searching (Handlers.text message));
              Handlers.SendMessage (Handlers.chat_id message)
                (match recipes with
                 | [] => Handlers.RecipesNotFound
                 | _ :: _ => Handlers.RecipesFound recipes
                 end)];
        Handlers.transport_calls := S (S (Handlers.transport_calls w));
        Handlers.gpt := Handlers.gpt w |})
  /\ (handle_text message w).2.(Handlers.user_state)
       !! Handlers.from_user_id message = None.
Proof.
  intros Hu Hst Hact Ht1 Ht2 recipes.
  assert (Hrun : handle_text message w = (Some tt,
     {| Handlers.user_state :=
          delete (Handlers.from_user_id message) (Handlers.user_state w);
        Handlers.sent :=
          Handlers.sent w
          ++ [Handlers.SendMessage (Handlers.chat_id message)
                (Handlers.Searching (Handlers.text message));
              Handlers.SendMessage (Handlers.chat_id message)
                (match recipes with
                 | [] => Handlers.RecipesNotFound
                 | _ :: _ => Handlers.RecipesFound recipes
                 end)];
        Handlers.transport_calls := S (S (Handlers.transport_calls w));
        Handlers.gpt := Handlers.gpt w |})).
  { unfold handle_text, Handlers.handle_text, Handlers.try_except.
    unfold mbind, Handlers.handler_bind, Handlers.bind, Handlers.lift_option,
      Handlers.get_state, Handlers.send_message.
    rewrite Hu, Hst. cbv zeta. rewrite Hact.
    rewrite decide_True by done.
    rewrite transport_accepts by done.
    fold recipes. destruct recipes as [|r rs].
    - rewrite transport_accepts by done.
      unfold Handlers.del_state. cbn. rewrite Hst.
      by rewrite <- app_assoc.
    - rewrite transport_accepts by done.
      unfold Handlers.del_state. cbn. rewrite Hst.
      by rewrite <- app_assoc. }
  split; [exact Hrun|]. rewrite Hrun. cbn. apply lookup_delete_eq.
Qed.

Lemma handle_text_idle message w user :
  get_or_create_user message = Some user ->
  Handlers.user_state w !! Handlers.from_user_id message = None ->
  transport_ok (Handlers.transport_calls w) = true ->
  handle_text message w
  = (Some tt,
     {| Handlers.user_state := Handlers.user_state w;
        Handlers.sent :=
          Handlers.sent w
          ++ [Handlers.SendMessage (Handlers.chat_id message)
                Handlers.MainMenu];
        Handlers.transport_calls := S (Handlers.transport_calls w);
        Handlers.gpt := Handlers.gpt w |}).
Proof.
  intros Hu Hst Ht.
  unfold handle_text, Handlers.handle_text, Handlers.try_except.
  unfold mbind, Handlers.handler_bind, Handlers.bind, Handlers.lift_option,
    Handlers.get_state, Handlers.send_message.
  rewrite Hu, Hst. by rewrite transport_accepts.
Qed.

(** C5 (amended). When the pending action of the sender is
    [find_shops], a text message never changes [user_state]; when the
    profile lookup succeeds nothing at all happens: no message is sent
    (the main menu is not presented) and the world is left as it was. *)
Theorem handle_text_find_shops message w entry :
  Handlers.user_state w !! Handlers.from_user_id message = Some entry ->
  entry !! "action" = Some "find_shops" ->
  (handle_text message w).2.(Handlers.user_state) = Handlers.user_state w
  /\ (forall user,
        get_or_create_user message = Some user ->
        handle_text message w = (Some tt, w)).
Proof.
  intros Hst Hact.
  unfold handle_text, Handlers.handle_text, Handlers.try_except.
  unfold mbind, Handlers.handler_bind, Handlers.bind, Handlers.lift_option,
    Handlers.get_state, Handlers.send_message.
  destruct (get_or_create_user message) as [user|].
  - rewrite Hst. cbv zeta. rewrite Hact.
    rewrite decide_False by done. rewrite decide_False by done.
    split; [done|]. by intros ? _.
  - split; [apply transport_user_state | by intros ? ?].
Qed.

End HandlerProps.

Lemma handle_text_search_recipe_witness :
  Handlers.db_ok (Handlers.demo_message (u "курица")) = Some Handlers.demo_user
  /\ Handlers.user_state (Handlers.awaiting "search_recipe") !! 42
     = Some {[ "action" := "search_recipe" ]}
  /\ ({[ "action" := "search_recipe" ]} : gmap string string) !! "action"
     = Some "search_recipe"
  /\ Handlers.always_ok 0 = true /\ Handlers.always_ok 1 = true
  /\ (Handlers.handle_text Handlers.always_ok Handlers.db_ok
        Handlers.quiet_server false 10 (Handlers.demo_message (u "курица"))
        (Handlers.awaiting "search_recipe")).2.(Handlers.user_state) !! 42
     = None.
Proof.
  repeat (split; [reflexivity|]).
  exact (proj2 (handle_text_search_recipe Handlers.always_ok Handlers.db_ok
                  Handlers.quiet_server false 10
                  (Handlers.demo_message (u "курица"))
                  (Handlers.awaiting "search_recipe") Handlers.demo_user
                  {[ "action" := "search_recipe" ]}
                  eq_refl eq_refl eq_refl eq_refl eq_refl)).
Defined.

Lemma handle_text_find_shops_witness :
  Handlers.user_state (Handlers.awaiting "find_shops") !! 42
  = Some {[ "action" := "find_shops" ]}
  /\ ({[ "action" := "find_shops" ]} : gmap string string) !! "action"
     = Some "find_shops"
  /\ (Handlers.handle_text Handlers.always_ok Handlers.db_ok
        Handlers.quiet_server false 10 (Handlers.demo_message (u "рядом"))
        (Handlers.awaiting "find_shops")).2.(Handlers.user_state)
     = Handlers.user_state (Handlers.awaiting "find_shops").
Proof.
  repeat (split; [reflexivity|]).
  exact (proj1 (handle_text_find_shops Handlers.always_ok Handlers.db_ok
                  Handlers.quiet_server false 10
                  (Handlers.demo_message (u "рядом"))
                  (Handlers.awaiting "find_shops")
                  {[ "action" := "find_shops" ]} eq_refl eq_refl)).
Defined.

(** C5 as worded fails: with [find_shops] pending a text message is
    answered by nothing, while without a state entry the same message is
    answered by the main menu. *)
Lemma find_shops_text_gets_no_menu :
  (Handlers.handle_text Handlers.always_ok Handlers.db_ok
     Handlers.quiet_server false 10 (Handlers.demo_message (u "рядом"))
     (Handlers.awaiting "find_shops")).2.(Handlers.sent) = []
  /\ (Handlers.handle_text Handlers.always_ok Handlers.db_ok
        Handlers.quiet_server false 10 (Handlers.demo_message (u "рядом"))
        Handlers.idle_world).2.(Handlers.sent)
     = [Handlers.SendMessage 7 Handlers.MainMenu].
Proof. split; vm_compute; reflexivity. Qed.

(** C9 as worded fails: the state entry is deleted only at the end of
    the search branch.  When the transport refuses the first reply, or
    the profile lookup raises, the handler for [Exception] sends the
    error notice and the sender is still awaiting a query; no search
    result is sent. *)
Lemma search_recipe_stays_pending :
  (Handlers.user_state
     (Handlers.handle_text refuse_first Handlers.db_ok Handlers.quiet_server
        false 10 (Handlers.demo_message (u "курица"))
        (Handlers.awaiting "search_recipe")).2 !! 42
   = Some {[ "action" := "search_recipe" ]}
   /\ Handlers.sent
        (Handlers.handle_text refuse_first Handlers.db_ok Handlers.quiet_server
           false 10 (Handlers.demo_message (u "курица"))
           (Handlers.awaiting "search_recipe")).2
      = [Handlers.SendMessage 7 Handlers.ProcessingError])
  /\ (Handlers.user_state
        (Handlers.handle_text Handlers.always_ok (fun _ => None)
           Handlers.quiet_server false 10 (Handlers.demo_message (u "курица"))
           (Handlers.awaiting "search_recipe")).2 !! 42
      = Some {[ "action" := "search_recipe" ]}
      /\ Handlers.sent
           (Handlers.handle_text Handlers.always_ok (fun _ => None)
              Handlers.quiet_server false 10
              (Handlers.demo_message (u "курица"))
              (Handlers.awaiting "search_recipe")).2
         = [Handlers.SendMessage 7 Handlers.ProcessingError]).
Proof. repeat split; vm_compute; reflexivity. Qed.

Example search_then_idle :
  (Handlers.handle_text Handlers.always_ok Handlers.db_ok
     Handlers.quiet_server false 10 (Handlers.demo_message (u "масло"))
     (Handlers.awaiting "search_recipe")).2.(Handlers.sent)
  = [Handlers.SendMessage 7 (Handlers.Searching (u "масло"));
     Handlers.SendMessage 7 (Handlers.RecipesFound [r_001; r_002])].
Proof. vm_compute. reflexivity. Qed.

(** * Further properties of the code *)

(** ** Recipe lookup and search *)

Lemma recipe_ids_distinct : NoDup (map r_id MOCK_RECIPES).
Proof.
  apply NoDup_ListNoDup. repeat constructor; cbn [In map MOCK_RECIPES];
    intros H; repeat destruct H as [H|H]; try exact H;
    vm_compute in H; discriminate H.
Qed.

Lemma first_with_id_Some recipe_id recipes r :
  first_with_id recipe_id recipes = Some r ->
  In r recipes /\ r_id r = recipe_id.
Proof.
  induction recipes as [|x recipes IH]; cbn [first_with_id]; [done|].
  case_decide as Hx.
  - intros [= <-]. split; [by left | done].
  - intros H. destruct (IH H) as [Hin Hid]. split; [by right | done].
Qed.

Lemma first_with_id_unique recipes r :
  NoDup (map r_id recipes) -> In r recipes ->
  first_with_id (r_id r) recipes = Some r.
Proof.
  induction recipes as [|x recipes IH]; cbn [first_with_id map]; [done|].
  intros Hnd Hin. apply NoDup_cons in Hnd as [Hx Hnd].
  destruct Hin as [->|Hin]; [by rewrite decide_True|].
  rewrite decide_False; [by apply IH|].
  intros Heq. apply Hx. rewrite Heq. apply list_elem_of_In. by apply in_map.
Qed.

(** X1. [get_recipe_details] returns a recipe exactly when that recipe is
    in the catalogue and carries the requested id, so every catalogue
    recipe is found again by its own id and an unknown id gives [None]. *)
Theorem get_recipe_details_spec recipe_id r :
  get_recipe_details recipe_id = Some r <->
  In r MOCK_RECIPES /\ r_id r = recipe_id.
Proof.
  unfold get_recipe_details. split.
  - apply first_with_id_Some.
  - intros [Hin <-]. apply first_with_id_unique; [|done].
    apply recipe_ids_distinct.
Qed.

Lemma get_recipe_details_None recipe_id :
  get_recipe_details recipe_id = None <->
  forall r, In r MOCK_RECIPES -> r_id r <> recipe_id.
Proof.
  unfold get_recipe_details. split.
  - intros Hn r Hin Hid.
    pose proof (first_with_id_unique MOCK_RECIPES r recipe_ids_distinct Hin)
      as Hr.
    rewrite Hid in Hr. congruence.
  - intros Hall.
    destruct (first_with_id recipe_id MOCK_RECIPES) as [r|] eqn:Hr; [|done].
    apply first_with_id_Some in Hr as [Hin Hid]. by destruct (Hall r Hin).
Qed.

Lemma py_slice_to_take {A} (l : list A) limit :
  exists n, py_slice_to l limit = take n l.
Proof. unfold py_slice_to. destruct (0 <=? limit); eauto. Qed.

Lemma py_slice_to_sublist {A} (l : list A) limit : py_slice_to l limit `sublist_of` l.
Proof.
  destruct (py_slice_to_take l limit) as [n ->]. apply sublist_take.
Qed.

Section SearchMore.
Context {L : Lowercase}.

(** X2. Whatever the query, flags and limit (negative ones included),
    the result of [search_recipes] is a sub-list of the catalogue in
    catalogue order, holds no recipe twice, and every recipe in it
    matches the stripped lower-cased query and passes the enabled
    diagnosis rules. *)
Theorem search_recipes_sound q d g c limit :
  search_recipes q d g c limit `sublist_of` MOCK_RECIPES
  /\ NoDup (search_recipes q d g c limit)
  /\ Forall
       (fun r =>
          matches_query (strip (lower q)) r = true
          /\ passes_diagnosis d g c r = true)
       (search_recipes q d g c limit).
Proof.
  rewrite search_recipes_unfold.
  set (l := List.filter _ MOCK_RECIPES).
  assert (Hsub : py_slice_to l limit `sublist_of` l) by apply py_slice_to_sublist.
  assert (Hl : l `sublist_of` MOCK_RECIPES) by apply list_filter_sublist.
  split; [by etrans|]. split.
  - apply (sublist_NoDup _ MOCK_RECIPES); [|by etrans].
    eapply NoDup_fmap_1. apply recipe_ids_distinct.
  - apply Forall_forall. intros r Hr.
    assert (Hin : r ∈ l) by (by eapply elem_of_sublist).
    apply list_elem_of_In, filter_In in Hin as [_ Hin].
    by apply andb_true_iff in Hin.
Qed.

(** X3. The limit only cuts the result: for non-negative limits the
    result for a smaller limit is a prefix of the result for a larger
    one, limit 0 gives the empty list, and any limit of at least the
    catalogue size gives every matching recipe. *)
Theorem search_recipes_limit q d g c l1 l2 :
  0 <= l1 <= l2 ->
  search_recipes q d g c l1 `prefix_of` search_recipes q d g c l2
  /\ search_recipes q d g c 0 = []
  /\ (Z.of_nat (length MOCK_RECIPES) <= l2 ->
      search_recipes q d g c l2
      = List.filter
          (fun r =>
             matches_query (strip (lower q)) r && passes_diagnosis d g c r)
          MOCK_RECIPES).
Proof.
  intros [H1 H2]. rewrite !search_recipes_unfold.
  set (l := List.filter _ MOCK_RECIPES).
  rewrite !py_slice_to_nonneg by lia. split; [|split].
  - replace (Z.to_nat l1) with (Z.to_nat l1 `min` Z.to_nat l2)%nat by lia.
    rewrite <- take_take. apply prefix_take.
  - reflexivity.
  - intros Hn. apply take_ge.
    pose proof (sublist_length _ _ (list_filter_sublist
      (fun r => matches_query (strip (lower q)) r && passes_diagnosis d g c r)
      MOCK_RECIPES)) as Hlen.
    fold l in Hlen. lia.
Qed.

End SearchMore.

Lemma search_recipes_limit_witness :
  0 <= 1 <= 2
  /\ search_recipes (u "масло") false false false 1
     `prefix_of` search_recipes (u "масло") false false false 2.
Proof.
  split; [lia|].
  exact (proj1 (search_recipes_limit (u "масло") false false false 1 2
                  ltac:(lia))).
Defined.

(** X4. [_filter_by_diagnosis] with no flag set returns its input;
    filtering twice with the same flags changes nothing more; and the
    filter of a concatenation is the concatenation of the filters. *)
Theorem filter_by_diagnosis_algebra l1 l2 d g c :
  _filter_by_diagnosis l1 false false false = l1
  /\ _filter_by_diagnosis (_filter_by_diagnosis l1 d g c) d g c
     = _filter_by_diagnosis l1 d g c
  /\ _filter_by_diagnosis (l1 ++ l2) d g c
     = _filter_by_diagnosis l1 d g c ++ _filter_by_diagnosis l2 d g c.
Proof.
  rewrite !filter_by_diagnosis_filter. split; [|split].
  - induction l1 as [|x l IH]; cbn; [done|]. by rewrite IH.
  - rewrite list_filter_filter. apply filter_ext. intros r.
    by destruct (passes_diagnosis d g c r).
  - apply List.filter_app.
Qed.

(** ** Distances and the shop locator *)

Section LocatorEdges.
Context {F : Float64}.

Lemma find_nearby_shops_all lat lon r limit :
  Z.of_nat (length MOCK_SHOPS) <= limit ->
  find_nearby_shops lat lon r limit = in_radius_sorted lat lon r.
Proof.
  intros Hl. rewrite find_nearby_shops_unfold, py_slice_to_nonneg by lia.
  apply take_ge. rewrite in_radius_sorted_length.
  pose proof (sublist_length _ _
    (list_filter_sublist (in_radius lat lon r) MOCK_SHOPS)). lia.
Qed.

(** X6. Edges of [find_nearby_shops], for every float arithmetic: a
    limit of 0 returns the empty list; when the computed distance of
    every catalogue shop exceeds the radius the result is empty for
    every limit; and with a limit of at least the catalogue size a
    catalogue shop is listed exactly when its computed distance is at
    most the radius, the result then holding as many records as there
    are such shops. *)
Theorem find_nearby_shops_edges lat lon r limit :
  find_nearby_shops lat lon r 0 = []
  /\ ((forall shop,
         In shop MOCK_SHOPS -> (r < planar_distance lat lon shop)%R) ->
      find_nearby_shops lat lon r limit = [])
  /\ (Z.of_nat (length MOCK_SHOPS) <= limit ->
      (forall shop,
         In shop MOCK_SHOPS ->
         (In (with_distance lat lon shop) (find_nearby_shops lat lon r limit)
          <-> (planar_distance lat lon shop <= r)%R))
      /\ length (find_nearby_shops lat lon r limit)
         = length (List.filter (in_radius lat lon r) MOCK_SHOPS)).
Proof.
  split; [|split].
  - by rewrite find_nearby_shops_unfold.
  - intros Hfar. rewrite find_nearby_shops_unfold. unfold in_radius_sorted.
    assert (Hnone : List.filter (in_radius lat lon r) MOCK_SHOPS = []).
    { induction MOCK_SHOPS as [|shop shops IH]; cbn [List.filter]; [done|].
      replace (in_radius lat lon r shop) with false.
      - apply IH. intros shop' Hin. apply Hfar. by right.
      - symmetry. apply not_true_is_false. rewrite in_radius_true.
        pose proof (Hfar shop (or_introl eq_refl)). lra. }
    rewrite Hnone. cbn [map sort_by_key]. unfold py_slice_to.
    by destruct (0 <=? limit); rewrite take_nil.
  - intros Hl. rewrite find_nearby_shops_all by done. split.
    + intros shop Hin. rewrite in_radius_sorted_In. split.
      * intros (shop' & _ & Hr & Heq).
        apply (f_equal sd_shop) in Heq. cbn in Heq. by subst.
      * intros Hr. by exists shop.
    + apply in_radius_sorted_length.
Qed.

End LocatorEdges.

(** *** At the position of a shop

    Evaluated with [exact_arith]: at a shop's own position both
    coordinate differences are zero, and every other catalogue shop is
    more than ten metres away. *)

Lemma py_round_2_lower (x : R) : (x - 1 / 200 <= py_round x 2)%R.
Proof.
  destruct (py_round_2_error x) as [H _].
  pose proof (Rle_abs (x - py_round x 2)) as Ha.
  rewrite Rabs_minus_sym in Ha. lra.
Qed.

Lemma py_round_2_nonneg (x : R) : (0 <= x)%R -> (0 <= py_round x 2)%R.
Proof.
  intros Hx. destruct (py_round_2_error x) as [_ H100].
  pose proof (round_half_even_error (x * 100)) as [Hlo _].
  assert (Hn : (-1 < round_half_even (x * 100))%Z).
  { apply lt_IZR. lra. }
  assert (Hn' : (0 <= IZR (round_half_even (x * 100)))%R).
  { apply IZR_le. lia. }
  lra.
Qed.

Lemma planar_distance_own shop :
  planar_distance (Q2R (s_latitude shop)) (Q2R (s_longitude shop)) shop = 0%R.
Proof.
  rewrite <- calculate_distance_planar. apply calculate_distance_self.
Qed.

Lemma py_round_2_zero : py_round 0 2 = 0%R.
Proof. rewrite (py_round_2_near 0 0); lra. Qed.

Lemma shops_far_apart s s' :
  In s MOCK_SHOPS -> In s' MOCK_SHOPS ->
  s = s'
  \/ (1 / 100
      < planar_distance (Q2R (s_latitude s)) (Q2R (s_longitude s)) s')%R.
Proof.
  unfold MOCK_SHOPS. cbn [In].
  intros [<-|[<-|[<-|[]]]] [<-|[<-|[<-|[]]]];
    first [ by left
          | right; planar; apply sqrt_between with (b := 2%R); lra ].
Qed.

(** X7. Searching from the position of a catalogue shop, with a
    non-negative radius and a limit of at least one, returns that shop
    first, with a reported distance of 0. *)
Theorem find_nearby_shops_at_shop shop r limit :
  In shop MOCK_SHOPS -> (0 <= r)%R -> 1 <= limit ->
  exists rest,
    find_nearby_shops (Q2R (s_latitude shop)) (Q2R (s_longitude shop)) r limit
    = {| sd_shop := shop; distance_km := 0%R |} :: rest.
Proof.
  intros Hshop Hr Hlimit.
  set (lat := Q2R (s_latitude shop)). set (lon := Q2R (s_longitude shop)).
  assert (Hown : with_distance lat lon shop
                 = {| sd_shop := shop; distance_km := 0%R |}).
  { unfold with_distance. subst lat lon.
    cbn [float_round exact_arith].
    by rewrite planar_distance_own, py_round_2_zero. }
  assert (Hin : In (with_distance lat lon shop) (in_radius_sorted lat lon r)).
  { apply in_radius_sorted_In. exists shop. split; [done|]. split; [|done].
    subst lat lon. rewrite planar_distance_own. lra. }
  pose proof (sort_by_key_sorted distance_km
    (map (with_distance lat lon) (List.filter (in_radius lat lon r) MOCK_SHOPS)))
    as Hsorted.
  fold (in_radius_sorted lat lon r) in Hsorted.
  rewrite find_nearby_shops_unfold, py_slice_to_nonneg by lia.
  destruct (in_radius_sorted lat lon r) as [|hd tl] eqn:Hl; [destruct Hin|].
  assert (Hhd : In hd (in_radius_sorted lat lon r)) by (rewrite Hl; by left).
  apply in_radius_sorted_In in Hhd as (shop' & Hshop' & Hr' & ->).
  assert (Hsame : shop = shop').
  { destruct (shops_far_apart shop shop' Hshop Hshop') as [|Hfar]; [done|].
    exfalso. fold lat lon in Hfar.
    pose proof (py_round_2_lower (planar_distance lat lon shop')) as Hlow.
    destruct Hin as [Heq|Htl].
    - apply (f_equal sd_shop) in Heq. cbn in Heq. subst shop'.
      subst lat lon. rewrite planar_distance_own in Hfar. lra.
    - apply StronglySorted_inv in Hsorted as [_ Hall].
      rewrite List.Forall_forall in Hall. specialize (Hall _ Htl).
      rewrite Hown in Hall. unfold by_distance in Hall.
      cbn [distance_km with_distance float_round exact_arith] in Hall. lra. }
  subst shop'. rewrite Hown.
  destruct (Z.to_nat limit) as [|n] eqn:Hn; [lia|].
  cbn [take]. by eexists.
Qed.

Lemma find_nearby_shops_at_shop_witness :
  In shop_003 MOCK_SHOPS /\ (0 <= 0)%R /\ 1 <= 1
  /\ exists rest,
       find_nearby_shops (Q2R (s_latitude shop_003))
         (Q2R (s_longitude shop_003)) 0 1
       = {| sd_shop := shop_003; distance_km := 0%R |} :: rest.
Proof.
  assert (H1 : In shop_003 MOCK_SHOPS) by (right; right; left; reflexivity).
  assert (H2 : (0 <= 0)%R) by lra.
  assert (H3 : 1 <= 1) by lia.
  split; [exact H1|]. split; [exact H2|]. split; [exact H3|].
  exact (find_nearby_shops_at_shop shop_003 0 1 H1 H2 H3).
Defined.

(** ** Pricing, further *)

Lemma price_fold_names table ings1 ings2 acc :
  map ing_name ings1 = map ing_name ings2 ->
  fold_left (price_step table) ings1 acc
  = fold_left (price_step table) ings2 acc.
Proof.
  revert ings2 acc. induction ings1 as [|i1 ings1 IH];
    intros [|i2 ings2] acc Hn; try done.
  cbn [map] in Hn. injection Hn as Hi Hn. cbn [fold_left].
  replace (price_step table acc i2) with (price_step table acc i1)
    by (unfold price_step; by rewrite Hi).
  by apply IH.
Qed.

Section PricingMore.
Context {F : Float64}.

Lemma shop_quote_names ings1 ings2 shop :
  map ing_name ings1 = map ing_name ings2 ->
  shop_quote ings1 shop = shop_quote ings2 shop.
Proof.
  intros Hn. unfold shop_quote.
  rewrite (price_fold_names _ ings1 ings2) by done.
  assert (Hlen : length ings1 = length ings2).
  { by rewrite <- (length_map ing_name ings1), Hn, length_map. }
  rewrite Hlen.
  destruct ings1, ings2; try done.
Qed.

(** X8. The quotes of [get_prices_for_recipe] depend only on the names
    of the ingredients: the recipe id, the amounts and the units are
    ignored.  The result has one entry per catalogue shop, keyed by shop
    id in catalogue order, and no entry carries the key [shop_id]. *)
Theorem get_prices_for_recipe_names id1 id2 ings1 ings2 :
  map ing_name ings1 = map ing_name ings2 ->
  get_prices_for_recipe id1 ings1 = get_prices_for_recipe id2 ings2
  /\ map fst (get_prices_for_recipe id1 ings1) = map s_id MOCK_SHOPS
  /\ Forall (fun kv => shop_id kv.2 = None) (get_prices_for_recipe id1 ings1).
Proof.
  intros Hn. rewrite !get_prices_for_recipe_unfold. split; [|split].
  - apply map_ext. intros shop. by rewrite (shop_quote_names ings1 ings2).
  - rewrite map_map. by apply map_ext.
  - apply Forall_forall. intros [k e] Hin.
    apply list_elem_of_In, in_map_iff in Hin as (shop & [= <- <-] & _).
    unfold shop_quote. by destruct (fold_left _ _ _).
Qed.

End PricingMore.

Lemma get_prices_for_recipe_names_witness :
  map ing_name (r_ingredients r_001) = map ing_name r_001_doubled
  /\ get_prices_for_recipe (r_id r_001) (r_ingredients r_001)
     = get_prices_for_recipe (r_id r_002) r_001_doubled.
Proof.
  assert (H : map ing_name (r_ingredients r_001) = map ing_name r_001_doubled).
  { unfold r_001_doubled. rewrite map_map. by apply map_ext. }
  split; [exact H|].
  exact (proj1 (get_prices_for_recipe_names (r_id r_001) (r_id r_002)
                  (r_ingredients r_001) r_001_doubled H)).
Defined.

Lemma price_step_count table t f i :
  (price_step table (t, f) i).2 = f + (if priced table i then 1 else 0).
Proof.
  unfold price_step, priced. cbv zeta.
  destruct (dict_get (ing_name i) table) as [p|]; cbn; [|lia].
  destruct (Qeq_bool p 0); cbn; lia.
Qed.

Lemma price_fold_count table ings t f :
  (fold_left (price_step table) ings (t, f)).2
  = f + Z.of_nat (length (List.filter (priced table) ings)).
Proof.
  revert t f. induction ings as [|i ings IH]; intros t f; cbn [fold_left List.filter].
  - cbn. lia.
  - pose proof (price_step_count table t f i) as Hs.
    destruct (price_step table (t, f) i) as [t' f']. cbn [snd] in Hs.
    rewrite IH, Hs. destruct (priced table i); cbn [length]; lia.
Qed.

Lemma price_fold_app table ings1 ings2 acc :
  fold_left (price_step table) (ings1 ++ ings2) acc
  = fold_left (price_step table) ings2 (fold_left (price_step table) ings1 acc).
Proof. apply fold_left_app. Qed.

Lemma matched_total_app table ings1 ings2 :
  (matched_total table (ings1 ++ ings2)
   == matched_total table ings1 + matched_total table ings2)%Q.
Proof.
  unfold matched_total.
  induction ings1 as [|i ings1 IH]; cbn [app fold_right].
  - symmetry. apply Qplus_0_l.
  - rewrite IH. apply Qplus_assoc.
Qed.

Lemma matched_total_unpriced table ings :
  List.filter (priced table) ings = [] -> (matched_total table ings == 0)%Q.
Proof.
  unfold matched_total.
  induction ings as [|i ings IH]; cbn [List.filter fold_right];
    [reflexivity|].
  unfold priced at 1.
  destruct (dict_get (ing_name i) table) as [p|] eqn:Hp; cbn [default from_option].
  - destruct (Qeq_bool p 0) eqn:Hz; cbn [negb]; [|done].
    intros H. apply Qeq_bool_iff in Hz. rewrite (IH H). unfold id.
    rewrite Hz. reflexivity.
  - intros H. rewrite (IH H). reflexivity.
Qed.

Section PricingFound.
Context {F : Float64}.

(** X9. In the quote of a catalogue shop the number of found ingredients
    is exactly the number of ingredients that have a non-zero price under
    their exact name in the shop's table; when none is found the total is
    0; and for a concatenated ingredient list both the total and the
    found count are the sums over the two parts. *)
Theorem get_prices_for_recipe_found recipe_id ings1 ings2 shop :
  In shop MOCK_SHOPS ->
  exists e1 e2 e12,
    dict_get (s_id shop) (get_prices_for_recipe recipe_id ings1) = Some e1
    /\ dict_get (s_id shop) (get_prices_for_recipe recipe_id ings2) = Some e2
    /\ dict_get (s_id shop) (get_prices_for_recipe recipe_id (ings1 ++ ings2))
       = Some e12
    /\ found_ingredients e1
       = Z.of_nat (length (List.filter (priced (shop_price_table shop)) ings1))
    /\ (found_ingredients e1 = 0 -> (total_price e1 == 0)%Q)
    /\ found_ingredients e12 = found_ingredients e1 + found_ingredients e2
    /\ (total_price e12 == total_price e1 + total_price e2)%Q.
Proof.
  intros Hshop.
  exists (shop_quote ings1 shop), (shop_quote ings2 shop),
    (shop_quote (ings1 ++ ings2) shop).
  rewrite !get_prices_for_recipe_lookup by done.
  destruct (shop_quote_fields ings1 shop) as (Ht1 & _).
  destruct (shop_quote_fields ings2 shop) as (Ht2 & _).
  destruct (shop_quote_fields (ings1 ++ ings2) shop) as (Ht12 & _).
  assert (Hf : forall ings,
    found_ingredients (shop_quote ings shop)
    = Z.of_nat (length (List.filter (priced (shop_price_table shop)) ings))).
  { intros ings. unfold shop_quote. fold (shop_price_table shop).
    pose proof (price_fold_count (shop_price_table shop) ings 0%Q 0) as Hc.
    destruct (fold_left _ _ _) as [t f]. cbn [snd] in Hc.
    cbn [found_ingredients]. lia. }
  do 3 (split; [reflexivity|]). split; [apply Hf|]. split; [|split].
  - rewrite Hf. intros H0. rewrite Ht1. apply matched_total_unpriced.
    destruct (List.filter _ ings1); [done | cbn [length] in H0; lia].
  - rewrite !Hf, List.filter_app, length_app. lia.
  - rewrite Ht12, Ht1, Ht2. apply matched_total_app.
Qed.

End PricingFound.

Lemma get_prices_for_recipe_found_witness :
  In shop_001 MOCK_SHOPS
  /\ exists e1,
       dict_get (s_id shop_001)
         (get_prices_for_recipe (r_id r_003) (r_ingredients r_003)) = Some e1
       /\ (found_ingredients e1 = 0 -> (total_price e1 == 0)%Q).
Proof.
  assert (H : In shop_001 MOCK_SHOPS) by (left; reflexivity).
  split; [exact H|].
  destruct (get_prices_for_recipe_found (r_id r_003) (r_ingredients r_003) []
              shop_001 H) as (e1 & e2 & e12 & H1 & _ & _ & _ & H2 & _).
  exists e1. split; [exact H1 | exact H2].
Defined.

(** ** The cheapest shop, further *)

Lemma min_from_ext {A} (key1 key2 : A -> option Q) best bk rest :
  (forall x, key1 x = key2 x) ->
  min_from key1 best bk rest = min_from key2 best bk rest.
Proof.
  intros Hk. revert best bk. induction rest as [|x rest IH]; intros best bk;
    cbn [min_from]; [done|].
  rewrite Hk. destruct (key2 x) as [k|]; cbn [mbind option_bind]; [|done].
  destruct (Qlt_le_dec k bk); apply IH.
Qed.

Lemma py_min_ext {A} (key1 key2 : A -> option Q) items :
  (forall x, key1 x = key2 x) -> py_min key1 items = py_min key2 items.
Proof.
  intros Hk. destruct items as [|first rest]; cbn [py_min]; [done|].
  rewrite Hk. destruct (key2 first) as [k|]; cbn [mbind option_bind]; [|done].
  by apply min_from_ext.
Qed.

Lemma item_price_set_shop_id (h : store) l k e x :
  h !! l = Some e ->
  item_price (<[l := set_shop_id k e]> h) x = item_price h x.
Proof.
  intros He. unfold item_price.
  destruct (decide (x.2 = l)) as [->|Hne].
  - by rewrite lookup_insert_eq, He.
  - by rewrite lookup_insert_ne.
Qed.

(** X10. [find_cheapest_shop] is idempotent: on a non-empty map with
    valid references a second call on the store left by the first
    returns the same dictionary and leaves that store as it is, and the
    references of the map stay valid. *)
Theorem find_cheapest_shop_idempotent (m : price_map) (h : store) :
  m <> [] -> refs_valid h m ->
  exists l h',
    find_cheapest_shop m h = Some (Some l, h')
    /\ find_cheapest_shop m h' = Some (Some l, h')
    /\ refs_valid h' m.
Proof.
  intros Hne Hv.
  destruct (find_cheapest_shop_split m h Hne Hv)
    as (pre & k & l & post & e & Heq & He & H1 & H2 & Hrun).
  exists l, (<[l := set_shop_id k e]> h). split; [done|].
  assert (Hprice : forall x,
    item_price (<[l := set_shop_id k e]> h) x = item_price h x)
    by (intros x; by apply item_price_set_shop_id).
  split.
  - unfold find_cheapest_shop in *. destruct m as [|first rest]; [done|].
    rewrite (py_min_ext _ (item_price h)) by done.
    destruct (py_min (item_price h) (first :: rest)) as [[k' l']|];
      cbn [mbind option_bind] in *; [|done].
    destruct (h !! l') as [e'|] eqn:He'; cbn [mbind option_bind] in Hrun; [|done].
    injection Hrun as Hl Hh. subst l'.
    assert (e' = e) by congruence. subst e'.
    assert (Hk : set_shop_id k' e = set_shop_id k e).
    { apply (f_equal (fun s : store => s !! l)) in Hh.
      rewrite !lookup_insert_eq in Hh. congruence. }
    rewrite lookup_insert_eq. cbn [mbind option_bind].
    rewrite insert_insert_eq.
    change (set_shop_id k' (set_shop_id k e)) with (set_shop_id k' e).
    by rewrite Hk.
  - eapply Forall_impl; [exact Hv|]. intros x [ex Hx]. cbn beta in *.
    destruct (decide (x.2 = l)) as [->|Hn].
    + rewrite lookup_insert_eq. by eexists.
    + rewrite lookup_insert_ne by done. by eexists.
Qed.

Lemma find_cheapest_shop_idempotent_witness :
  quotes_map <> [] /\ refs_valid quotes_store quotes_map
  /\ exists l h',
       find_cheapest_shop quotes_map quotes_store = Some (Some l, h')
       /\ find_cheapest_shop quotes_map h' = Some (Some l, h').
Proof.
  split; [discriminate|]. split; [exact quotes_refs_valid|].
  destruct (find_cheapest_shop_idempotent quotes_map quotes_store
              ltac:(discriminate) quotes_refs_valid) as (l & h' & H1 & H2 & _).
  exists l, h'. split; [exact H1 | exact H2].
Defined.

(** ** Cost of a recipe *)

Lemma alloc_prices_spec d (h : store) m h' :
  alloc_prices d h = (m, h') ->
  map fst m = map fst d
  /\ (forall l, is_Some (h !! l) -> h' !! l = h !! l)
  /\ Forall2 (fun kl ke => h' !! kl.2 = Some ke.2) m d
  /\ Forall (fun kl => h !! kl.2 = None) m.
Proof.
  revert h m h'. induction d as [|[k e] d IH]; intros h m h'; cbn [alloc_prices].
  - intros [= <- <-]. repeat split; try done; constructor.
  - set (l := fresh (dom h)).
    assert (Hl : h !! l = None) by (apply not_elem_of_dom, is_fresh).
    destruct (alloc_prices d (<[l := e]> h)) as [m1 h1] eqn:Ha.
    intros [= <- <-].
    destruct (IH _ _ _ Ha) as (Hk & Hkeep & Hall & Hnew).
    assert (Hkeep' : forall l0, is_Some (h !! l0) -> h1 !! l0 = h !! l0).
    { intros l0 Hs. assert (l0 <> l) by (intros ->; rewrite Hl in Hs; by destruct Hs).
      rewrite Hkeep; rewrite lookup_insert_ne; done. }
    split; [cbn [map fst]; by rewrite Hk|]. split; [done|]. split.
    + constructor; [|done]. cbn [snd].
      rewrite Hkeep by (rewrite lookup_insert_eq; by eexists).
      apply lookup_insert_eq.
    + constructor; [done|]. eapply Forall_impl; [exact Hnew|].
      intros [k0 l0] H0. cbn [snd] in *.
      destruct (decide (l0 = l)) as [->|Hne];
        [by rewrite lookup_insert_eq in H0 | by rewrite lookup_insert_ne in H0].
Qed.

Lemma alloc_prices_valid d (h : store) m h' :
  alloc_prices d h = (m, h') -> refs_valid h' m.
Proof.
  intros Ha. destruct (alloc_prices_spec _ _ _ _ Ha) as (_ & _ & Hall & _).
  unfold refs_valid. clear Ha. induction Hall as [|kl ke m d Hx _ IH];
    constructor; [by eexists | done].
Qed.

Section RecipeCostProps.
Context {F : Float64}.

(** X11. [calculate_recipe_cost] always produces a result, for every
    recipe, position and store: the result names the recipe, its price
    map has one entry per catalogue shop in catalogue order, the cheapest
    shop is never missing and is one of the dictionaries of that price
    map, seen through the price map it carries the key [shop_id] of its
    own entry and a total price that no other entry undercuts, at most
    three nearby shops are listed, and no dictionary that was in the
    store before is changed. *)
Theorem calculate_recipe_cost_result recipe lat lon (h : store) :
  exists res h' k l e,
    calculate_recipe_cost recipe lat lon h = Some (res, h')
    /\ recipe_name res = r_name recipe
    /\ map fst (all_prices res) = map s_id MOCK_SHOPS
    /\ cheapest_shop res = Some l
    /\ In (k, l) (all_prices res)
    /\ h' !! l = Some e
    /\ shop_id e = Some k
    /\ Forall (price_ge h' (total_price e)) (all_prices res)
    /\ (length (nearby_shops res) <= 3)%nat
    /\ (forall l0, is_Some (h !! l0) -> h' !! l0 = h !! l0).
Proof.
  unfold calculate_recipe_cost.
  destruct (alloc_prices _ h) as [m h1] eqn:Ha.
  pose proof (alloc_prices_spec _ _ _ _ Ha) as (Hkeys & Hkeep & Hall & Hnew).
  pose proof (alloc_prices_valid _ _ _ _ Ha) as Hv.
  assert (Hne : m <> []).
  { intros ->. apply (f_equal length) in Hkeys.
    rewrite get_prices_for_recipe_unfold in Hkeys. by cbn in Hkeys. }
  destruct (find_cheapest_shop_split m h1 Hne Hv)
    as (pre & k & l & post & e & Heq & He & H1 & H2 & Hrun).
  rewrite Hrun.
  eexists _, _, k, l, (set_shop_id k e). split; [reflexivity|].
  cbn [recipe_name all_prices cheapest_shop nearby_shops].
  split; [done|]. split.
  { rewrite Hkeys, get_prices_for_recipe_unfold, map_map. by apply map_ext. }
  split; [done|]. split; [rewrite Heq; apply in_or_app; right; by left|].
  split; [apply lookup_insert_eq|]. split; [done|]. split; [|split].
  - assert (Hge : Forall (price_ge h1 (total_price e)) m).
    { rewrite Heq. apply Forall_app. split.
      - eapply Forall_impl; [exact H1|].
        intros y (ey & Hy & Hlt). exists ey. split; [done|]. lra.
      - constructor; [|done]. exists e. split; [done|]. lra. }
    eapply Forall_impl; [exact Hge|]. intros [k0 l0] (e0 & H0 & Hle).
    cbn [snd] in *. unfold price_ge. cbn [snd].
    destruct (decide (l0 = l)) as [->|Hn].
    + exists (set_shop_id k e). rewrite lookup_insert_eq. split; [done|].
      cbn. lra.
    + exists e0. by rewrite lookup_insert_ne.
  - rewrite find_nearby_shops_unfold, py_slice_to_nonneg by lia.
    rewrite length_take. lia.
  - intros l0 Hs. assert (l0 <> l).
    { intros ->. rewrite List.Forall_forall in Hnew.
      assert (Hin : In (k, l) m) by (rewrite Heq; apply in_or_app; right; by left).
      specialize (Hnew _ Hin). cbn [snd] in Hnew. rewrite Hnew in Hs.
      by destruct Hs. }
    rewrite lookup_insert_ne by done. by apply Hkeep.
Qed.

End RecipeCostProps.

(** ** Handlers, further *)

Ltac unfold_handler :=
  unfold Handlers.handle_text, Handlers.handle_callback, Handlers.try_except,
    mbind, mret, Handlers.handler_bind, Handlers.handler_ret, Handlers.bind,
    Handlers.ret, Handlers.lift_option, Handlers.get_state,
    Handlers.send_message, Handlers.answer_callback_query.

(** Evaluates the comparisons of two literal tags in the goal. *)
Ltac eval_tags :=
  repeat match goal with
  | |- context [String.eqb ?a ?b] =>
      let v := eval vm_compute in (String.eqb a b) in
      change (String.eqb a b) with v
  end.

Section CallbackProps.
Variable transport_ok : nat -> bool.
Variable diary_query : Z -> option (list Handlers.DiaryEntry).

Let handle_callback := Handlers.handle_callback transport_ok diary_query.

(** X12. Selecting one of the three input actions, with a transport that
    accepts the two calls, answers the callback, sends the prompt of the
    action and stores exactly that action as the caller's pending action,
    replacing whatever was pending before. *)
Theorem handle_callback_sets_pending call w prompt :
  pending_prompt (Handlers.data call) = Some prompt ->
  transport_ok (Handlers.transport_calls w) = true ->
  transport_ok (S (Handlers.transport_calls w)) = true ->
  handle_callback call w
  = (Some tt,
     {| Handlers.user_state :=
          <[Handlers.call_from_user_id call
              := {[ "action" := Handlers.data call ]}]>
            (Handlers.user_state w);
        Handlers.sent :=
          Handlers.sent w
          ++ [Handlers.AnswerCallback (Handlers.call_id call);
              Handlers.SendMessage (Handlers.call_chat_id call) prompt];
        Handlers.transport_calls := S (S (Handlers.transport_calls w));
        Handlers.gpt := Handlers.gpt w |}).
Proof.
  intros Hp Ht1 Ht2.
  assert (Hd : exists tag, Handlers.data call = tag
    /\ (tag = "search_recipe" /\ prompt = Handlers.AskForQuery
        \/ tag = "find_shops" /\ prompt = Handlers.AskForLocation
        \/ tag = "ask_dietician" /\ prompt = Handlers.AskForQuestion)).
  { unfold pending_prompt in Hp. exists (Handlers.data call). split; [done|].
    destruct (String.eqb_spec (Handlers.data call) "search_recipe") as [->|_];
      [injection Hp as <-; tauto|].
    destruct (String.eqb_spec (Handlers.data call) "find_shops") as [->|_];
      [injection Hp as <-; tauto|].
    destruct (String.eqb_spec (Handlers.data call) "ask_dietician") as [->|_];
      [injection Hp as <-; tauto|done]. }
  destruct Hd as (tag & Hd & Hcases).
  unfold handle_callback. unfold_handler. cbv beta iota.
  rewrite (transport_accepts transport_ok) by done. rewrite Hd.
  destruct Hcases as [[-> ->]|[[-> ->]|[-> ->]]]; eval_tags;
    cbv beta iota; rewrite (transport_accepts transport_ok) by done;
    unfold Handlers.set_state; cbn; by rewrite <- app_assoc.
Qed.

End CallbackProps.

Lemma handle_callback_sets_pending_witness :
  pending_prompt (Handlers.data (demo_call "ask_dietician"))
  = Some Handlers.AskForQuestion
  /\ Handlers.always_ok 0 = true /\ Handlers.always_ok 1 = true
  /\ (Handlers.handle_callback Handlers.always_ok (fun _ => Some [])
        (demo_call "ask_dietician")
        (Handlers.awaiting "search_recipe")).2.(Handlers.user_state) !! 42
     = Some {[ "action" := "ask_dietician" ]}.
Proof.
  repeat (split; [reflexivity|]).
  rewrite (handle_callback_sets_pending Handlers.always_ok (fun _ => Some [])
             (demo_call "ask_dietician") (Handlers.awaiting "search_recipe")
             Handlers.AskForQuestion eq_refl eq_refl eq_refl).
  apply lookup_insert_eq.
Defined.

(** *** What a handler may touch *)

Section Frame.
Context {L : Lowercase}.
Variable transport_ok : nat -> bool.
Variable get_or_create_user : Handlers.Message -> option Handlers.User.
Variable diary_query : Z -> option (list Handlers.DiaryEntry).
Variable server : Gpt.upstream.
Variable connection_is_api_error : bool.
Variable max_recipe_results : Z.
Variable uid : Z.

Lemma preserves_bind {A B} (m : Handlers.H A) (k : A -> Handlers.H B) :
  preserves uid m -> (forall a, preserves uid (k a)) -> preserves uid (Handlers.bind m k).
Proof.
  intros Hm Hk w other Hne. unfold Handlers.bind.
  specialize (Hm w other Hne). destruct (m w) as [[a|] w1]; cbn [snd] in *.
  - rewrite <- Hm. by apply Hk.
  - done.
Qed.

Lemma preserves_try {A} (body handler : Handlers.H A) :
  preserves uid body -> preserves uid handler ->
  preserves uid (Handlers.try_except body handler).
Proof.
  intros Hb Hh w other Hne. unfold Handlers.try_except.
  specialize (Hb w other Hne). destruct (body w) as [[a|] w1]; cbn [snd] in *.
  - done.
  - rewrite <- Hb. by apply Hh.
Qed.

Lemma preserves_transport s : preserves uid (Handlers.transport transport_ok s).
Proof. intros w other _. by rewrite transport_user_state. Qed.

Lemma preserves_pure {A} (o : option A) : preserves uid (Handlers.lift_option o).
Proof. by intros w other _. Qed.

Lemma preserves_ret {A} (a : A) : preserves uid (Handlers.ret a).
Proof. by intros w other _. Qed.

Lemma preserves_get : preserves uid (Handlers.get_state uid).
Proof. by intros w other _. Qed.

Lemma preserves_set d : preserves uid (Handlers.set_state uid d).
Proof. intros w other Hne. cbn. by rewrite lookup_insert_ne. Qed.

Lemma preserves_del : preserves uid (Handlers.del_state uid).
Proof.
  intros w other Hne. unfold Handlers.del_state.
  destruct (Handlers.user_state w !! uid); cbn; [|done].
  by rewrite lookup_delete_ne.
Qed.

Lemma preserves_ask q d g c :
  preserves uid (Handlers.call_ask_dietician server connection_is_api_error q d g c).
Proof.
  intros w other _. unfold Handlers.call_ask_dietician.
  by destruct (Gpt.ask_dietician _ _ _ _ _ _ _).
Qed.

End Frame.

Create HintDb frame.
#[local] Hint Resolve preserves_transport preserves_pure preserves_ret
  preserves_get preserves_set preserves_del preserves_ask : frame.

Ltac frame_auto :=
  repeat first
    [ apply preserves_try
    | apply preserves_bind; [|intros ?]
    | progress eauto with frame
    | match goal with
      | |- @preserves _ _ (if ?b then _ else _) => destruct b
      | |- @preserves _ _ (match ?x with _ => _ end) => destruct x
      end ].

(** X13. A handler only ever touches the state entry of the user it
    serves: whatever the transport, the persistence layer and the
    language model do, [handle_text] leaves the pending action of every
    user other than the sender as it was, and so does [handle_callback]
    for every user other than the caller. *)
Theorem handlers_touch_own_entry {L : Lowercase} transport_ok
    get_or_create_user diary_query server connection_is_api_error
    max_recipe_results message call w :
  same_for_others (Handlers.from_user_id message) w
    (Handlers.handle_text transport_ok get_or_create_user server
       connection_is_api_error max_recipe_results message w).2
  /\ same_for_others (Handlers.call_from_user_id call) w
       (Handlers.handle_callback transport_ok diary_query call w).2.
Proof.
  split.
  - revert w.
    change (preserves (Handlers.from_user_id message)
              (Handlers.handle_text transport_ok get_or_create_user server
                 connection_is_api_error max_recipe_results message)).
    unfold Handlers.handle_text, mbind, mret, Handlers.handler_bind,
      Handlers.handler_ret, Handlers.send_message. cbv zeta.
    frame_auto.
  - revert w.
    change (preserves (Handlers.call_from_user_id call)
              (Handlers.handle_callback transport_ok diary_query call)).
    unfold Handlers.handle_callback, mbind, mret, Handlers.handler_bind,
      Handlers.handler_ret, Handlers.send_message,
      Handlers.answer_callback_query.
    frame_auto.
Qed.

(** *** The other paths of [handle_text] *)

Section TextPaths.
Context {L : Lowercase}.
Variable transport_ok : nat -> bool.
Variable get_or_create_user : Handlers.Message -> option Handlers.User.
Variable server : Gpt.upstream.
Variable connection_is_api_error : bool.
Variable max_recipe_results : Z.

Let handle_text :=
  Handlers.handle_text transport_ok get_or_create_user server
    connection_is_api_error max_recipe_results.

Lemma transport_refuses s w :
  transport_ok (Handlers.transport_calls w) = false ->
  Handlers.transport transport_ok s w
  = (None,
     {| Handlers.user_state := Handlers.user_state w;
        Handlers.sent := Handlers.sent w;
        Handlers.transport_calls := S (Handlers.transport_calls w);
        Handlers.gpt := Handlers.gpt w |}).
Proof. intros H. unfold Handlers.transport. by rewrite H. Qed.

(** X14. When the pending action of the sender is [ask_dietician], the
    profile lookup succeeds and the transport accepts the two messages,
    [handle_text] sends the "thinking" notice, makes exactly one request
    to the language model with the message text and the profile's flags,
    sends the resulting string (the answer, or an apology when the
    request raised) and deletes the sender's state entry. *)
Theorem handle_text_ask_dietician message w user entry :
  get_or_create_user message = Some user ->
  Handlers.user_state w !! Handlers.from_user_id message = Some entry ->
  entry !! "action" = Some "ask_dietician" ->
  transport_ok (Handlers.transport_calls w) = true ->
  transport_ok (S (Handlers.transport_calls w)) = true ->
  exists response,
    handle_text message w
    = (Some tt,
       {| Handlers.user_state :=
            delete (Handlers.from_user_id message) (Handlers.user_state w);
          Handlers.sent :=
            Handlers.sent w
            ++ [Handlers.SendMessage (Handlers.chat_id message)
                  Handlers.Thinking;
                Handlers.SendMessage (Handlers.chat_id message)
                  (Handlers.Advice response)];
          Handlers.transport_calls := S (S (Handlers.transport_calls w));
          Handlers.gpt :=
            {| Gpt.requests := S (Gpt.requests (Handlers.gpt w));
               Gpt.sleeps := Gpt.sleeps (Handlers.gpt w) |} |})
    /\ match
         server (Gpt.requests (Handlers.gpt w))
           (Gpt.full_prompt (Handlers.text message)
              (Handlers.has_diabetes user) (Handlers.has_gout user)
              (Handlers.has_celiac user))
       with
       | Gpt.Answer content => response = strip content
       | Gpt.Raise _ =>
           response = Gpt.apology_api \/ response = Gpt.apology_other
       end.
Proof.
  intros Hu Hst Hact Ht1 Ht2.
  destruct (ask_dietician_body_returns server connection_is_api_error
              (Handlers.text message) (Handlers.has_diabetes user)
              (Handlers.has_gout user) (Handlers.has_celiac user)
              (Handlers.gpt w)) as (response & Hrun & Hresp).
  exists response. split; [|exact Hresp].
  unfold handle_text. unfold_handler. cbv beta iota.
  rewrite Hu, Hst. cbv beta iota zeta. rewrite Hact.
  rewrite decide_False by done. rewrite decide_True by done.
  rewrite (transport_accepts transport_ok) by done.
  unfold Handlers.call_ask_dietician, Gpt.ask_dietician.
  cbn [Gpt.retrying Handlers.gpt]. rewrite Hrun.
  rewrite (transport_accepts transport_ok) by done.
  unfold Handlers.del_state. cbn. rewrite Hst. by rewrite <- app_assoc.
Qed.

(** X15. A failure on the search path leaves the conversation where it
    was: when the pending action is [search_recipe] and either the
    profile lookup fails or the transport refuses the first message, the
    whole [user_state] is unchanged, so the sender is still awaiting a
    query, and the only thing sent, if the transport accepts it, is the
    error notice. *)
Theorem handle_text_failure_keeps_pending message w entry :
  Handlers.user_state w !! Handlers.from_user_id message = Some entry ->
  entry !! "action" = Some "search_recipe" ->
  get_or_create_user message = None
  \/ transport_ok (Handlers.transport_calls w) = false ->
  Handlers.user_state (handle_text message w).2 = Handlers.user_state w
  /\ (Handlers.sent (handle_text message w).2 = Handlers.sent w
      \/ Handlers.sent (handle_text message w).2
         = Handlers.sent w
           ++ [Handlers.SendMessage (Handlers.chat_id message)
                 Handlers.ProcessingError]).
Proof.
  intros Hst Hact Hfail.
  unfold handle_text. unfold_handler. cbv beta iota.
  destruct (get_or_create_user message) as [user|] eqn:Hu.
  - destruct Hfail as [|Ht]; [done|].
    rewrite Hst. cbv beta iota zeta. rewrite Hact.
    rewrite decide_True by done.
    cbv beta iota. rewrite transport_refuses by done. cbv beta iota.
    unfold Handlers.transport. cbn.
    destruct (transport_ok (S (Handlers.transport_calls w))); cbn;
      (split; [reflexivity | first [by left | by right]]).
  - unfold Handlers.transport.
    destruct (transport_ok (Handlers.transport_calls w)); cbn;
      (split; [reflexivity | first [by left | by right]]).
Qed.

End TextPaths.

Lemma handle_text_ask_dietician_witness :
  Handlers.db_ok (Handlers.demo_message (u "Что есть на ужин?"))
  = Some Handlers.demo_user
  /\ Handlers.user_state (Handlers.awaiting "ask_dietician") !! 42
     = Some {[ "action" := "ask_dietician" ]}
  /\ ({[ "action" := "ask_dietician" ]} : gmap string string) !! "action"
     = Some "ask_dietician"
  /\ Handlers.always_ok 0 = true /\ Handlers.always_ok 1 = true
  /\ exists response,
       (Handlers.handle_text Handlers.always_ok Handlers.db_ok
          Gpt.flaky_server false 10
          (Handlers.demo_message (u "Что есть на ужин?"))
          (Handlers.awaiting "ask_dietician")).2.(Handlers.sent)
       = [Handlers.SendMessage 7 Handlers.Thinking;
          Handlers.SendMessage 7 (Handlers.Advice response)].
Proof.
  repeat (split; [reflexivity|]).
  destruct (handle_text_ask_dietician Handlers.always_ok Handlers.db_ok
              Gpt.flaky_server false 10
              (Handlers.demo_message (u "Что есть на ужин?"))
              (Handlers.awaiting "ask_dietician") Handlers.demo_user
              {[ "action" := "ask_dietician" ]}
              eq_refl eq_refl eq_refl eq_refl eq_refl)
    as (response & Hrun & _).
  exists response. rewrite Hrun. reflexivity.
Defined.

Lemma handle_text_failure_keeps_pending_witness :
  Handlers.user_state (Handlers.awaiting "search_recipe") !! 42
  = Some {[ "action" := "search_recipe" ]}
  /\ ({[ "action" := "search_recipe" ]} : gmap string string) !! "action"
     = Some "search_recipe"
  /\ (Handlers.db_ok (Handlers.demo_message (u "курица")) = None
      \/ refuse_first 0 = false)
  /\ Handlers.user_state
       (Handlers.handle_text refuse_first Handlers.db_ok Handlers.quiet_server
          false 10 (Handlers.demo_message (u "курица"))
          (Handlers.awaiting "search_recipe")).2
     = Handlers.user_state (Handlers.awaiting "search_recipe").
Proof.
  split; [reflexivity|]. split; [reflexivity|].
  split; [right; reflexivity|].
  exact (proj1 (handle_text_failure_keeps_pending refuse_first Handlers.db_ok
                  Handlers.quiet_server false 10
                  (Handlers.demo_message (u "курица"))
                  (Handlers.awaiting "search_recipe")
                  {[ "action" := "search_recipe" ]} eq_refl eq_refl
                  (or_intror eq_refl))).
Defined.

Example str_int_7 :
  py_str_int 7 = u "7" /\ py_str_int (-12) = u "-12"
  /\ py_str_int 0 = u "0".
Proof. repeat split; vm_compute; reflexivity. Qed.

(** ** Prompts *)

Lemma startswith_app needle rest : startswith needle (needle ++ rest) = true.
Proof.
  induction needle as [|c needle IH]; cbn [startswith app]; [done|].
  by rewrite N.eqb_refl, IH.
Qed.

Lemma contains_cons needle c hay :
  contains needle hay = true -> contains needle (c :: hay) = true.
Proof.
  intros H. cbn [contains]. rewrite H. apply orb_true_r.
Qed.

Lemma contains_app_r needle pre hay :
  contains needle hay = true -> contains needle (pre ++ hay) = true.
Proof.
  intros H. induction pre as [|c pre IH]; cbn [app]; [done|].
  by apply contains_cons.
Qed.

Lemma startswith_app_l needle hay post :
  startswith needle hay = true -> startswith needle (hay ++ post) = true.
Proof.
  revert hay. induction needle as [|c needle IH]; intros [|h hay];
    cbn [startswith app]; try done.
  intros [Hc Hn]%andb_true_iff. by rewrite Hc, IH.
Qed.

Lemma contains_app_l needle hay post :
  contains needle hay = true -> contains needle (hay ++ post) = true.
Proof.
  induction hay as [|h hay IH]; cbn [contains app].
  - rewrite orb_false_r. intros H. destruct needle; [|done].
    apply contains_nil.
  - intros [H|H]%orb_true_iff; apply orb_true_iff.
    + left. by apply (startswith_app_l needle (h :: hay)).
    + right. by apply IH.
Qed.

Lemma contains_self needle : contains needle needle = true.
Proof.
  destruct needle as [|c needle]; [done|]. cbn [contains].
  pose proof (startswith_app (c :: needle) []) as H.
  rewrite app_nil_r in H. by rewrite H.
Qed.

Lemma contains_middle needle pre post :
  contains needle (pre ++ needle ++ post) = true.
Proof. apply contains_app_r, contains_app_l, contains_self. Qed.

Lemma contains_join sep parts p :
  In p parts -> contains p (Gpt.join sep parts) = true.
Proof.
  induction parts as [|x parts IH]; [done|].
  intros [->|Hin].
  - destruct parts as [|y parts]; cbn [Gpt.join];
      [apply contains_self | apply contains_app_l, contains_self].
  - destruct parts as [|y parts]; [done|]. cbn [Gpt.join].
    apply contains_app_r, contains_app_r. by apply IH.
Qed.

(** X17. [generate_meal_plan] makes exactly one request and always
    returns a string: the stripped answer, or the fixed failure text when
    the request raised; nothing is retried.  The prompt it sends names
    the number of days and every dietary restriction whose flag is set,
    and asks for a balanced plan when no flag is set. *)
Theorem generate_meal_plan_single_request server days d g c st :
  let prompt := meal_plan_prompt days d g c in
  (exists s,
     generate_meal_plan server days d g c st
     = (Gpt.Returned s,
        {| Gpt.requests := S (Gpt.requests st); Gpt.sleeps := Gpt.sleeps st |})
     /\ match server (Gpt.requests st) prompt with
        | Gpt.Answer content => s = strip content
        | Gpt.Raise _ => s = plan_failure
        end)
  /\ contains (py_str_int days) prompt = true
  /\ (d = true -> contains (u "низкий гликемический индекс") prompt = true)
  /\ (g = true -> contains (u "низкое содержание пуринов") prompt = true)
  /\ (c = true -> contains (u "без глютена") prompt = true)
  /\ (d = false -> g = false -> c = false ->
      contains (u "Сбалансированный план питания.") prompt = true).
Proof.
  intros prompt. split.
  { unfold generate_meal_plan. fold prompt. cbv zeta.
    destruct (server _ _) as [content|e]; eexists; split; reflexivity. }
  assert (Hpart : forall p restrictions,
    contains p restrictions = true ->
    contains p
      (u "Создайте план питания на " ++ py_str_int days ++ u " дней. "
       ++ restrictions ++ u " "
       ++ u "Для каждого дня укажите завтрак, обед, ужин и перекус. "
       ++ u "Включите основные питательные показатели.") = true).
  { intros p r Hp. by do 3 apply contains_app_r; apply contains_app_l. }
  assert (Hjoin : forall p diagnoses,
    In p diagnoses ->
    contains p
      match diagnoses with
      | [] => u "Сбалансированный план питания."
      | _ :: _ =>
          u "План питания должен включать: " ++ Gpt.join (u ", ") diagnoses
            ++ u "."
      end = true).
  { intros p ds Hin. destruct ds as [|x ds]; [destruct Hin|].
    apply contains_app_r, contains_app_l. by apply contains_join. }
  subst prompt. unfold meal_plan_prompt. cbv zeta.
  split; [apply contains_middle|].
  split; [|split; [|split]].
  - intros ->. apply Hpart, Hjoin. apply in_or_app. left. by left.
  - intros ->. apply Hpart, Hjoin. apply in_or_app. right.
    apply in_or_app. left. by left.
  - intros ->. apply Hpart, Hjoin. apply in_or_app. right.
    apply in_or_app. right. by left.
  - intros -> -> ->. cbn [app]. apply Hpart, contains_self.
Qed.

(** X18. The prompt of [ask_dietician] carries the user's question
    unchanged and names every diagnosis whose flag is set; with no flag
    set it opens with the line for users without special diagnoses. *)
Theorem full_prompt_content question d g c :
  let prompt := Gpt.full_prompt question d g c in
  contains question prompt = true
  /\ (d = true -> contains (u "сахарный диабет") prompt = true)
  /\ (g = true -> contains (u "подагра") prompt = true)
  /\ (c = true -> contains (u "целиакия") prompt = true)
  /\ (d = false -> g = false -> c = false ->
      startswith (u "Пользователь без специальных диагнозов. ") prompt = true).
Proof.
  intros prompt. subst prompt. unfold Gpt.full_prompt. cbv zeta.
  assert (Hjoin : forall p diagnoses rest,
    In p diagnoses ->
    contains p
      (match diagnoses with
       | [] => u "Пользователь без специальных диагнозов. "
       | _ :: _ =>
           u "Пользователь имеет: " ++ Gpt.join (u ", ") diagnoses ++ u ". "
       end ++ rest) = true).
  { intros p ds rest Hin. destruct ds as [|x ds]; [destruct Hin|].
    apply contains_app_l, contains_app_r, contains_app_l.
    by apply contains_join. }
  split; [do 3 apply contains_app_r; apply contains_app_l, contains_self|].
  split; [|split; [|split]].
  - intros ->. apply Hjoin. apply in_or_app. left. by left.
  - intros ->. apply Hjoin. apply in_or_app. right.
    apply in_or_app. left. by left.
  - intros ->. apply Hjoin. apply in_or_app. right.
    apply in_or_app. right. by left.
  - intros -> -> ->. cbn [app]. apply startswith_app.
Qed.

(** X19. The preview that [log_message] writes is never longer than 53
    characters: a message of at most 50 characters is logged as it is, a
    longer one as its first 50 characters followed by an ellipsis. *)
Theorem log_preview_bounded text :
  (length (log_preview text) <= 53)%nat
  /\ ((length text <= 50)%nat -> log_preview text = text)
  /\ ((50 < length text)%nat ->
      log_preview text = take 50 text ++ u "..."
      /\ length (log_preview text) = 53%nat).
Proof.
  unfold log_preview.
  assert (Hdots : length (u "...") = 3%nat) by (vm_compute; reflexivity).
  destruct (Nat.ltb_spec 50 (length text)) as [Hlt|Hle].
  - rewrite length_app, length_take, Hdots. repeat split; lia.
  - repeat split; [lia | lia |lia].
Qed.
